(** * AXP2101 power-management driver: register encoding, verified

    A shallow embedding of [axp2101.py] (the CircuitPython driver of the
    X-Powers AXP2101) and the properties of its specification.

    The driver talks to the chip through an [I2CDevice] and keeps a
    two-byte transfer buffer.  Every method is a computation over the
    driver object that either returns a value or raises, and that leaves
    a chronological record of the bus transactions it issued. *)

From Stdlib Require Import ZArith String List Lia DecimalString.
From Stdlib Require HexadecimalString.
From stdpp Require Import base gmap.
Import ListNotations.
Local Open Scope Z_scope.

(** ** The peripheral behind the bus

    What answers on the other end of the wire: reading register [a]
    yields an octet, writing octet [v] to register [a] changes the
    peripheral.  The driver is generic in it. *)

Class Peripheral (D : Type) := {
  peek : D -> Z -> Z;
  poke : D -> Z -> Z -> D;
  peek_octet : forall d a, 0 <= peek d a < 256
}.

(** A bus read transfers one octet. *)
Definition octet (v : Z) : Z := v mod 256.

(** A plain register file: a register holds what was last written to it;
    a register never written reads as 0. *)
#[global] Instance RegisterMap : Peripheral (gmap Z Z) := {
  peek m a := octet (default 0 (m !! a));
  poke m a v := <[a := v]> m;
  peek_octet m a := Z.mod_pos_bound _ 256 eq_refl
}.

(** The register file of the chip as far as the interrupt status register
    0x49 goes: writing a 1 to a bit of 0x49 clears that latched bit, writing
    a 0 leaves it; every other register is plain. *)
Record IrqChip := { cells : gmap Z Z }.

Definition IRQ_STATUS : Z := 0x49.

#[global] Instance IrqChip_Peripheral : Peripheral IrqChip := {
  peek c a := octet (default 0 (cells c !! a));
  poke c a v :=
    if a =? IRQ_STATUS
    then {| cells := <[a := Z.land (octet (default 0 (cells c !! a))) (Z.lnot v)]> (cells c) |}
    else {| cells := <[a := v]> (cells c) |};
  peek_octet c a := Z.mod_pos_bound _ 256 eq_refl
}.

(** ** adafruit_bus_device.i2c_device.I2CDevice

    The device object and the calls the driver uses.  [wire] is the record
    of transactions, oldest first; a zero-length write is [TxWrite []]. *)

Inductive Txn :=
| TxWrite (sent : list Z)
| TxWriteThenRead (sent : list Z) (received : list Z).

Record I2CDevice (D : Type) := {
  chip : D;
  wire : list Txn
}.
Arguments chip {D} _.
Arguments wire {D} _.

(** The 2-byte [bytearray] the driver reuses for all transfers. *)
Record bytearray2 := { byte0 : Z; byte1 : Z }.

(** The driver object: [self._device] and [self._buffer]. *)
Record AXP2101 (D : Type) := {
  _device : I2CDevice D;
  _buffer : bytearray2
}.
Arguments _device {D} _.
Arguments _buffer {D} _.

(** The enum-like class [BatteryStatus]. *)
Module BatteryStatus.

Inductive t := DISCHARGING | STANDBY | CHARGING.

Definition value (b : t) : Z :=
  match b with DISCHARGING => 1 | STANDBY => 2 | CHARGING => 3 end.

End BatteryStatus.

(** The arguments a caller may hand to a setter. *)
Inductive pyobj := PyBool (b : bool) | PyInt (z : Z) | PyNone.

(** ** Computations that may raise *)

Inductive exn := ValueError (msg : string).

Inductive result (A : Type) :=
| Ok (a : A)
| Raise (e : exn).
Arguments Ok {A} _.
Arguments Raise {A} _.

Definition M (D A : Type) : Type := AXP2101 D -> result A * AXP2101 D.

Definition ret {D A} (a : A) : M D A := fun s => (Ok a, s).

Definition raise {D A} (e : exn) : M D A := fun s => (Raise e, s).

Definition bind {D A B} (m : M D A) (k : A -> M D B) : M D B :=
  fun s => match m s with
           | (Ok a, s') => k a s'
           | (Raise e, s') => (Raise e, s')
           end.

Declare Scope driver_scope.
Delimit Scope driver_scope with drv.
Notation "x <- m ;; k" := (bind m (fun x => k))
  (at level 100, m at next level, right associativity) : driver_scope.
Notation "m ;;; k" := (bind m (fun _ => k))
  (at level 100, right associativity) : driver_scope.
Local Open Scope driver_scope.

Section Driver.
Context {D : Type} `{Peripheral D}.

(** [self._buffer[i] = v]: a bytearray item must be in [range(0, 256)]. *)
Definition set_buffer0 (v : Z) : M D unit := fun s =>
  if (0 <=? v) && (v <? 256)
  then (Ok tt, {| _device := _device s;
                  _buffer := {| byte0 := v; byte1 := byte1 (_buffer s) |} |})
  else (Raise (ValueError "byte must be in range(0, 256)"), s).

Definition set_buffer1 (v : Z) : M D unit := fun s =>
  if (0 <=? v) && (v <? 256)
  then (Ok tt, {| _device := _device s;
                  _buffer := {| byte0 := byte0 (_buffer s); byte1 := v |} |})
  else (Raise (ValueError "byte must be in range(0, 256)"), s).

Definition get_buffer0 : M D Z := fun s => (Ok (byte0 (_buffer s)), s).
Definition get_buffer1 : M D Z := fun s => (Ok (byte1 (_buffer s)), s).

(** [self._device.write(self._buffer)]: register address, then the octet. *)
Definition device_write : M D unit := fun s =>
  let b := _buffer s in
  (Ok tt, {| _device := {| chip := poke (chip (_device s)) (byte0 b) (byte1 b);
                           wire := wire (_device s) ++ [TxWrite [byte0 b; byte1 b]] |};
             _buffer := b |}).

(** [write_then_readinto(buf, buf, out_end=1, in_start=1)]:
    send the address, read one octet into [buf[1]]. *)
Definition device_write_then_readinto_1 : M D unit := fun s =>
  let b := _buffer s in
  let v := peek (chip (_device s)) (byte0 b) in
  (Ok tt, {| _device := {| chip := chip (_device s);
                           wire := wire (_device s) ++ [TxWriteThenRead [byte0 b] [v]] |};
             _buffer := {| byte0 := byte0 b; byte1 := v |} |}).

(** [write_then_readinto(buf, buf, out_end=1, in_end=1)]:
    send the address, read one octet into [buf[0]]. *)
Definition device_write_then_readinto_0 : M D unit := fun s =>
  let b := _buffer s in
  let v := peek (chip (_device s)) (byte0 b) in
  (Ok tt, {| _device := {| chip := chip (_device s);
                           wire := wire (_device s) ++ [TxWriteThenRead [byte0 b] [v]] |};
             _buffer := {| byte0 := v; byte1 := byte1 b |} |}).

(** [write_then_readinto(buf, buf, out_end=1)]: send the address, read two
    consecutive octets into [buf[0]], [buf[1]]. *)
Definition device_write_then_readinto_01 : M D unit := fun s =>
  let b := _buffer s in
  let v0 := peek (chip (_device s)) (byte0 b) in
  let v1 := peek (chip (_device s)) (byte0 b + 1) in
  (Ok tt, {| _device := {| chip := chip (_device s);
                           wire := wire (_device s) ++ [TxWriteThenRead [byte0 b] [v0; v1]] |};
             _buffer := {| byte0 := v0; byte1 := v1 |} |}).

(** *** Register primitives *)

Definition _set_bit_in_register (register bitmask : Z) (value : bool) : M D unit :=
  set_buffer0 register ;;;
  device_write_then_readinto_1 ;;;
  b1 <- get_buffer1 ;;
  (if value
   then set_buffer1 (Z.lor b1 bitmask)
   else set_buffer1 (Z.land b1 (Z.lnot bitmask))) ;;;
  device_write.

Definition _write_register8 (register value : Z) : M D unit :=
  set_buffer0 register ;;;
  set_buffer1 value ;;;
  device_write.

Definition _read_register8 (register : Z) : M D Z :=
  set_buffer0 register ;;;
  device_write_then_readinto_0 ;;;
  get_buffer0.

Definition _read_register14 (register : Z) : M D Z :=
  set_buffer0 register ;;;
  device_write_then_readinto_01 ;;;
  b0 <- get_buffer0 ;;
  b1 <- get_buffer1 ;;
  ret (Z.lor (Z.shiftl (Z.land b0 0x3F) 8) b1).

(** *** Regulators *)

Definition __set_ldo (num voltage : Z) : M D unit :=
  if (0 <=? num) && (num <=? 5) then
    let reg_volt := num + 0x92 in
    let reg90bit := Z.shiftl 1 num in
    if (0 <=? voltage) && (voltage <=? 3500) then
      if voltage >=? 500 then
        let reg_value := (voltage - 500) / 100 in
        _write_register8 reg_volt reg_value ;;;
        _set_bit_in_register 0x90 reg90bit true
      else
        _set_bit_in_register 0x90 reg90bit false
    else raise (ValueError "LDO voltage out of range. Allowed range 0-3500 mV")
  else raise (ValueError "Invalid LDO number").

Definition __get_ldo (num : Z) : M D Z :=
  if (0 <=? num) && (num <=? 5) then
    let reg_volt := num + 0x92 in
    let reg90bit := Z.shiftl 1 num in
    reg90 <- _read_register8 0x90 ;;
    if negb (Z.land reg90 reg90bit =? 0) then
      reg_value <- _read_register8 reg_volt ;;
      ret (reg_value * 100 + 500)
    else ret 0
  else raise (ValueError "Invalid LDO number").

(** [str(n)] for the message of [__set_dldo]. *)
Definition str (n : Z) : string := NilZero.string_of_int (Z.to_int n).

Definition __set_dldo (num voltage : Z) : M D unit :=
  if (1 <=? num) && (num <=? 2) then
    let '(reg_volt, max_volt, reg_enable, reg_enable_bit) :=
      if num =? 1 then (0x99, 3400, 0x90, 0x80) else (0x9A, 1400, 0x91, 0x01) in
    if (0 <=? voltage) && (voltage <=? max_volt) then
      if voltage >=? 500 then
        let step_volt := if num =? 1 then 100 else 50 in
        let reg_value := (voltage - 500) / step_volt in
        _write_register8 reg_volt reg_value ;;;
        _set_bit_in_register reg_enable reg_enable_bit true
      else
        _set_bit_in_register reg_enable reg_enable_bit false
    else raise (ValueError
                  ("LDO voltage out of range. Allowed range 0-" ++ str max_volt ++ " mV"))
  else raise (ValueError "Invald DLDO number").

Definition __get_dldo (num : Z) : M D Z :=
  if (1 <=? num) && (num <=? 2) then
    let '(reg_volt, reg_enable, reg_enable_bit) :=
      if num =? 1 then (0x99, 0x90, 0x80) else (0x9A, 0x91, 0x01) in
    reg_enable_val <- _read_register8 reg_enable ;;
    if negb (Z.land reg_enable_val reg_enable_bit =? 0) then
      let step_volt := if num =? 1 then 100 else 50 in
      reg_value <- _read_register8 reg_volt ;;
      ret (reg_value * step_volt + 500)
    else ret 0
  else raise (ValueError "Invald DLDO number").

(** The eight voltage-setpoint properties: getter, then setter. *)
Definition _aldo1_voltage_setpoint : M D Z := __get_ldo 0.
Definition _aldo1_voltage_setpoint_setter (voltage : Z) : M D unit := __set_ldo 0 voltage.
Definition _aldo2_voltage_setpoint : M D Z := __get_ldo 1.
Definition _aldo2_voltage_setpoint_setter (voltage : Z) : M D unit := __set_ldo 1 voltage.
Definition _aldo3_voltage_setpoint : M D Z := __get_ldo 2.
Definition _aldo3_voltage_setpoint_setter (voltage : Z) : M D unit := __set_ldo 2 voltage.
Definition _aldo4_voltage_setpoint : M D Z := __get_ldo 3.
Definition _aldo4_voltage_setpoint_setter (voltage : Z) : M D unit := __set_ldo 3 voltage.
Definition _bldo1_voltage_setpoint : M D Z := __get_ldo 4.
Definition _bldo1_voltage_setpoint_setter (voltage : Z) : M D unit := __set_ldo 4 voltage.
Definition _bldo2_voltage_setpoint : M D Z := __get_ldo 5.
Definition _bldo2_voltage_setpoint_setter (voltage : Z) : M D unit := __set_ldo 5 voltage.
Definition _dldo1_voltage_setpoint : M D Z := __get_dldo 1.
Definition _dldo1_voltage_setpoint_setter (voltage : Z) : M D unit := __set_dldo 1 voltage.
Definition _dldo2_voltage_setpoint : M D Z := __get_dldo 2.
Definition _dldo2_voltage_setpoint_setter (voltage : Z) : M D unit := __set_dldo 2 voltage.

(** *** Power control and key events *)

Definition power_off : M D unit := _set_bit_in_register 0x10 0x01 true.

Definition power_key_was_pressed : M D (bool * bool) :=
  reg_val <- _read_register8 0x49 ;;
  let short_press := negb (Z.land reg_val 0x08 =? 0) in
  let long_press := negb (Z.land reg_val 0x04 =? 0) in
  (if short_press || long_press
   then _write_register8 0x49 0x0C
   else ret tt) ;;;
  ret (short_press, long_press).

(** *** Battery telemetry *)

Definition is_battery_connected : M D bool :=
  reg_val <- _read_register8 0x00 ;;
  ret (negb (Z.land reg_val 0x08 =? 0)).

Definition battery_level : M D Z := _read_register8 0xA4.

Definition battery_voltage : M D Z := _read_register14 0x34.

Definition battery_charging_enabled : M D bool :=
  reg_val <- _read_register8 0x18 ;;
  ret (negb (Z.land reg_val 0x02 =? 0)).

Definition battery_charging_enabled_setter (enabled : pyobj) : M D unit :=
  match enabled with
  | PyBool b => _set_bit_in_register 0x18 0x02 b
  | _ => raise (ValueError "Enabled must be a boolean")
  end.

(** [None] is Python's [None]. *)
Definition battery_status : M D (option BatteryStatus.t) :=
  connected <- is_battery_connected ;;
  if negb connected then ret None
  else
    r <- _read_register8 0x01 ;;
    let reg_val := Z.shiftr (Z.land r 0x60) 5 in
    if reg_val =? 0 then ret (Some BatteryStatus.STANDBY)
    else if reg_val =? 1 then ret (Some BatteryStatus.CHARGING)
    else if reg_val =? 2 then ret (Some BatteryStatus.DISCHARGING)
    else ret None.

(** *** Construction *)





End Driver.

(** ** The regulator channel table of the specification

    The specification names the eight outputs and gives each a maximum, a
    step, a voltage-code register and an enable bit.  These definitions
    follow the specification's words; the theorems below relate them to
    the driver's code. *)

Inductive RegulatorChannel :=
| ALDO1 | ALDO2 | ALDO3 | ALDO4 | BLDO1 | BLDO2 | DLDO1 | DLDO2.

Definition channelMax (c : RegulatorChannel) : Z :=
  match c with DLDO1 => 3400 | DLDO2 => 1400 | _ => 3500 end.

Definition channelStep (c : RegulatorChannel) : Z :=
  match c with DLDO2 => 50 | _ => 100 end.

Definition voltageRegister (c : RegulatorChannel) : Z :=
  match c with
  | ALDO1 => 0x92 | ALDO2 => 0x93 | ALDO3 => 0x94 | ALDO4 => 0x95
  | BLDO1 => 0x96 | BLDO2 => 0x97 | DLDO1 => 0x99 | DLDO2 => 0x9A
  end.

Definition enableRegister (c : RegulatorChannel) : Z :=
  match c with DLDO2 => 0x91 | _ => 0x90 end.

Definition enableMask (c : RegulatorChannel) : Z :=
  match c with
  | ALDO1 => 0x01 | ALDO2 => 0x02 | ALDO3 => 0x04 | ALDO4 => 0x08
  | BLDO1 => 0x10 | BLDO2 => 0x20 | DLDO1 => 0x80 | DLDO2 => 0x01
  end.

(** [setLdo] and [getLdo] of the specification are the driver's setpoint
    properties, one pair per channel. *)
Definition setLdo {D} `{Peripheral D} (c : RegulatorChannel) (millivolts : Z) : M D unit :=
  match c with
  | ALDO1 => _aldo1_voltage_setpoint_setter millivolts
  | ALDO2 => _aldo2_voltage_setpoint_setter millivolts
  | ALDO3 => _aldo3_voltage_setpoint_setter millivolts
  | ALDO4 => _aldo4_voltage_setpoint_setter millivolts
  | BLDO1 => _bldo1_voltage_setpoint_setter millivolts
  | BLDO2 => _bldo2_voltage_setpoint_setter millivolts
  | DLDO1 => _dldo1_voltage_setpoint_setter millivolts
  | DLDO2 => _dldo2_voltage_setpoint_setter millivolts
  end.

Definition getLdo {D} `{Peripheral D} (c : RegulatorChannel) : M D Z :=
  match c with
  | ALDO1 => _aldo1_voltage_setpoint
  | ALDO2 => _aldo2_voltage_setpoint
  | ALDO3 => _aldo3_voltage_setpoint
  | ALDO4 => _aldo4_voltage_setpoint
  | BLDO1 => _bldo1_voltage_setpoint
  | BLDO2 => _bldo2_voltage_setpoint
  | DLDO1 => _dldo1_voltage_setpoint
  | DLDO2 => _dldo2_voltage_setpoint
  end.

(** ** Observations on a driver state *)

(** The peripheral behind the driver. *)
Definition regs {D} (s : AXP2101 D) : D := chip (_device s).

(** The transactions issued so far, oldest first. *)
Definition bus {D} (s : AXP2101 D) : list Txn := wire (_device s).

(** Whether the enable bit of channel [c] reads as set. *)
Definition enabled {D} `{Peripheral D} (c : RegulatorChannel) (d : D) : bool :=
  negb (Z.land (peek d (enableRegister c)) (enableMask c) =? 0).

(** Whether transaction [t] writes register [a]. *)
Definition writes_register (a : Z) (t : Txn) : bool :=
  match t with
  | TxWrite (r :: _ :: _) => r =? a
  | _ => false
  end.

(** A driver freshly attached to register file [m], before any traffic. *)
Definition attach {D} (d : D) : AXP2101 D :=
  {| _device := {| chip := d; wire := [] |};
     _buffer := {| byte0 := 0; byte1 := 0 |} |}.

(** ** Shapes of the resulting states

    The states and results the methods end in, named so that the
    statements below stay readable. *)

Section Shapes.
Context {D : Type} `{Peripheral D}.

(** A driver state given by its four components. *)
Definition after (d : D) (log : list Txn) (b0 b1 : Z) : AXP2101 D :=
  {| _device := {| chip := d; wire := log |};
     _buffer := {| byte0 := b0; byte1 := b1 |} |}.

(** The octet [_set_bit_in_register] computes from the one it read. *)
Definition merged (old bitmask : Z) (value : bool) : Z :=
  if value then Z.lor old bitmask else Z.land old (Z.lnot bitmask).

(** The driver state after a voltage code [code] went to register [vr] and
    the bits [mask] of register [er] were then set. *)
Definition programmed (s : AXP2101 D) (vr code er mask : Z) : AXP2101 D :=
  let d := poke (regs s) vr code in
  let new := merged (peek d er) mask true in
  after (poke d er new)
        (bus s ++ [TxWrite [vr; code]; TxWriteThenRead [er] [peek d er]; TxWrite [er; new]])
        er new.

(** The driver state after the bits [mask] of register [er] were cleared. *)
Definition switched_off (s : AXP2101 D) (er mask : Z) : AXP2101 D :=
  let new := merged (peek (regs s) er) mask false in
  after (poke (regs s) er new)
        (bus s ++ [TxWriteThenRead [er] [peek (regs s) er]; TxWrite [er; new]])
        er new.

(** Reading a channel back: the enable register, then, if the bit is set,
    the code register. *)
Definition read_back (s : AXP2101 D) (vr step er mask : Z) : result Z * AXP2101 D :=
  let e := peek (regs s) er in
  if negb (Z.land e mask =? 0) then
    (Ok (peek (regs s) vr * step + 500),
     after (regs s)
           (bus s ++ [TxWriteThenRead [er] [e]; TxWriteThenRead [vr] [peek (regs s) vr]])
           (peek (regs s) vr) (byte1 (_buffer s)))
  else
    (Ok 0,
     after (regs s) (bus s ++ [TxWriteThenRead [er] [e]]) e (byte1 (_buffer s))).

(** The two transactions a switch-off of channel [c] puts on the bus. *)
Definition switch_off_traffic (c : RegulatorChannel) (s : AXP2101 D) : list Txn :=
  let old := peek (regs s) (enableRegister c) in
  [TxWriteThenRead [enableRegister c] [old];
   TxWrite [enableRegister c; Z.land old (Z.lnot (enableMask c))]].

(** Whether register 0x00 reports a battery. *)
Definition battery_present (d : D) : bool :=
  negb (Z.land (peek d 0x00) 0x08 =? 0).

End Shapes.

(** The message of the range error for channel [c]. *)
Definition range_message (c : RegulatorChannel) : string :=
  ("LDO voltage out of range. Allowed range 0-" ++ str (channelMax c) ++ " mV")%string.

(** The classification of the specification: the two-bit charging code. *)
Definition classify (code : Z) : option BatteryStatus.t :=
  match code with
  | 0 => Some BatteryStatus.STANDBY
  | 1 => Some BatteryStatus.CHARGING
  | 2 => Some BatteryStatus.DISCHARGING
  | _ => None
  end.

(** The charging code in an octet of register 0x01. *)
Definition charging_code (r : Z) : Z := Z.shiftr (Z.land r 0x60) 5.

(** The two latched key flags in an octet of register 0x49. *)
Definition short_flag (v : Z) : bool := negb (Z.land v 0x08 =? 0).
Definition long_flag (v : Z) : bool := negb (Z.land v 0x04 =? 0).

(** The bus traffic of one poll that read [v] from register 0x49. *)
Definition poll_traffic (v : Z) : list Txn :=
  TxWriteThenRead [0x49] [v] ::
  (if short_flag v || long_flag v then [TxWrite [0x49; 0x0C]] else []).

(** Whether transaction [t] only reads. *)
Definition is_read (t : Txn) : bool :=
  match t with
  | TxWriteThenRead [_] _ => true
  | _ => false
  end.

(** [s'] comes from [s] by bus reads alone: same peripheral, and the bus
    record grew by read transactions only. *)
Definition read_only {D} (s s' : AXP2101 D) : Prop :=
  regs s' = regs s /\
  exists issued, bus s' = bus s ++ issued /\ forallb is_read issued = true.

(** Computation [m] only ever reads: from every state it ends in a state
    reached by bus reads alone, whether it returns or raises. *)
Definition reads_only {D A} (m : M D A) : Prop :=
  forall s, read_only s (snd (m s)).

(** Two outcomes agree in what the caller and the bus can see: the result
    (or the exception) and the device, whatever is left in the buffer. *)
Definition same_outcome {D A} (r r' : result A * AXP2101 D) : Prop :=
  fst r = fst r' /\ _device (snd r) = _device (snd r').

(** Computation [m] does not look at what an earlier call left in the
    transfer buffer. *)
Definition buffer_blind {D A} (m : M D A) : Prop :=
  forall s s', _device s = _device s' -> same_outcome (m s) (m s').

(** What [setLdo c v] does to a plain register file, in two parts: the
    code write (only for an accepted voltage of at least 500) and the
    update of the enable bit (for every accepted voltage). *)
Definition accepted (c : RegulatorChannel) (v : Z) : bool :=
  (0 <=? v) && (v <=? channelMax c).

Definition write_code (c : RegulatorChannel) (v : Z) (m : gmap Z Z) : gmap Z Z :=
  if accepted c v && (500 <=? v)
  then <[voltageRegister c := (v - 500) / channelStep c]> m
  else m.

Definition switch_enable (c : RegulatorChannel) (v : Z) (m : gmap Z Z) : gmap Z Z :=
  if accepted c v
  then <[enableRegister c :=
           merged (peek m (enableRegister c)) (enableMask c) (500 <=? v)]> m
  else m.

(** ** Octet arithmetic *)

Lemma octet_range v : 0 <= octet v < 256.
Proof. unfold octet. apply Z.mod_pos_bound. lia. Qed.

Lemma in_byte v : 0 <= v < 256 -> (0 <=? v) && (v <? 256) = true.
Proof.
  intros [Hlo Hhi]. apply andb_true_intro. split.
  - now apply Z.leb_le.
  - now apply Z.ltb_lt.
Qed.

Lemma not_in_byte v : ~ (0 <= v < 256) -> (0 <=? v) && (v <? 256) = false.
Proof.
  intros Hn. destruct ((0 <=? v) && (v <? 256)) eqn:E; [|reflexivity].
  apply andb_prop in E. destruct E as [E1 E2].
  apply Z.leb_le in E1. apply Z.ltb_lt in E2. lia.
Qed.

Lemma byte_iff_land x : 0 <= x < 256 <-> Z.land x 255 = x.
Proof.
  change 255 with (Z.ones 8). rewrite Z.land_ones by lia.
  change (2 ^ 8) with 256. split.
  - intros Hx. now apply Z.mod_small.
  - intros <-. apply Z.mod_pos_bound. lia.
Qed.

Lemma lor_byte a b : 0 <= a < 256 -> 0 <= b < 256 -> 0 <= Z.lor a b < 256.
Proof.
  rewrite !byte_iff_land. intros Ha Hb.
  now rewrite Z.land_lor_distr_l, Ha, Hb.
Qed.

Lemma land_byte a m : 0 <= a < 256 -> 0 <= Z.land a m < 256.
Proof.
  rewrite !byte_iff_land. intros Ha.
  now rewrite <- Z.land_assoc, (Z.land_comm m), Z.land_assoc, Ha.
Qed.

(** Setting the bits of [m] leaves the bits outside [m] as they were. *)
Lemma lor_outside a m : Z.land (Z.lor a m) (Z.lnot m) = Z.land a (Z.lnot m).
Proof.
  rewrite Z.land_lor_distr_l, Z.land_lnot_diag, Z.lor_0_r. reflexivity.
Qed.

(** Clearing the bits of [m] leaves the bits outside [m] as they were. *)
Lemma land_lnot_outside a m :
  Z.land (Z.land a (Z.lnot m)) (Z.lnot m) = Z.land a (Z.lnot m).
Proof. now rewrite <- Z.land_assoc, Z.land_diag. Qed.

Lemma lor_mask_set a m : Z.land (Z.lor a m) m = m.
Proof.
  rewrite Z.land_lor_distr_l, Z.land_diag. apply Z.bits_inj'. intros i Hi.
  rewrite Z.lor_spec, Z.land_spec. destruct (Z.testbit a i), (Z.testbit m i); reflexivity.
Qed.

Lemma land_lnot_mask_clear a m : Z.land (Z.land a (Z.lnot m)) m = 0.
Proof.
  rewrite <- Z.land_assoc, (Z.land_comm (Z.lnot m)), Z.land_lnot_diag.
  apply Z.land_0_r.
Qed.

(** ** What the register primitives do

    Each primitive, run on an arbitrary driver state, as one equation. *)

Section Primitives.
Context {D : Type} `{Peripheral D}.

Lemma read_register8_run r (s : AXP2101 D) :
  0 <= r < 256 ->
  _read_register8 r s =
    (Ok (peek (regs s) r),
     after (regs s) (bus s ++ [TxWriteThenRead [r] [peek (regs s) r]])
           (peek (regs s) r) (byte1 (_buffer s))).
Proof.
  intros Hr. unfold _read_register8, bind, set_buffer0.
  rewrite (in_byte r Hr). reflexivity.
Qed.

Lemma read_register14_run r (s : AXP2101 D) :
  0 <= r < 256 ->
  _read_register14 r s =
    (Ok (Z.lor (Z.shiftl (Z.land (peek (regs s) r) 0x3F) 8) (peek (regs s) (r + 1))),
     after (regs s)
           (bus s ++ [TxWriteThenRead [r] [peek (regs s) r; peek (regs s) (r + 1)]])
           (peek (regs s) r) (peek (regs s) (r + 1))).
Proof.
  intros Hr. unfold _read_register14, bind, set_buffer0.
  rewrite (in_byte r Hr). reflexivity.
Qed.

Lemma write_register8_run r v (s : AXP2101 D) :
  0 <= r < 256 -> 0 <= v < 256 ->
  _write_register8 r v s =
    (Ok tt, after (poke (regs s) r v) (bus s ++ [TxWrite [r; v]]) r v).
Proof.
  intros Hr Hv. unfold _write_register8, bind, set_buffer0, set_buffer1.
  rewrite (in_byte r Hr), (in_byte v Hv). reflexivity.
Qed.

Lemma set_bit_in_register_run r m b (s : AXP2101 D) :
  0 <= r < 256 ->
  0 <= merged (peek (regs s) r) m b < 256 ->
  _set_bit_in_register r m b s =
    (Ok tt,
     after (poke (regs s) r (merged (peek (regs s) r) m b))
           (bus s ++ [TxWriteThenRead [r] [peek (regs s) r];
                      TxWrite [r; merged (peek (regs s) r) m b]])
           r (merged (peek (regs s) r) m b)).
Proof.
  intros Hr Hv. unfold _set_bit_in_register, bind, set_buffer0.
  rewrite (in_byte r Hr). unfold merged, after, regs, bus in *.
  cbn -[Z.lor Z.land Z.lnot Z.leb Z.ltb].
  destruct b; unfold set_buffer1;
    cbn -[Z.lor Z.land Z.lnot Z.leb Z.ltb]; rewrite (in_byte _ Hv);
    unfold device_write; cbn -[Z.lor Z.land Z.lnot];
    rewrite <- app_assoc; reflexivity.
Qed.

Lemma merged_byte old m b :
  0 <= old < 256 -> 0 <= m < 256 -> 0 <= merged old m b < 256.
Proof.
  intros Ho Hm. destruct b; cbn.
  - now apply lor_byte.
  - now apply land_byte.
Qed.

(** Whatever the arguments, [_set_bit_in_register] either completes the
    read-modify-write with the merged octet, or raises with the peripheral
    as it was. *)
Lemma set_bit_in_register_cases r m b (s : AXP2101 D) :
  (0 <= r < 256 /\
   0 <= merged (peek (regs s) r) m b < 256 /\
   _set_bit_in_register r m b s =
     (Ok tt,
      after (poke (regs s) r (merged (peek (regs s) r) m b))
            (bus s ++ [TxWriteThenRead [r] [peek (regs s) r];
                       TxWrite [r; merged (peek (regs s) r) m b]])
            r (merged (peek (regs s) r) m b))) \/
  (exists e, fst (_set_bit_in_register r m b s) = Raise e /\
             regs (snd (_set_bit_in_register r m b s)) = regs s).
Proof.
  destruct (decide (0 <= r < 256)) as [Hr|Hr].
  - destruct (decide (0 <= merged (peek (regs s) r) m b < 256)) as [Hv|Hv].
    + left. split; [exact Hr|]. split; [exact Hv|].
      now apply set_bit_in_register_run.
    + right. unfold _set_bit_in_register, bind, set_buffer0.
      rewrite (in_byte r Hr). unfold merged, regs in *.
      cbn -[Z.lor Z.land Z.lnot Z.leb Z.ltb].
      destruct b; unfold set_buffer1;
        cbn -[Z.lor Z.land Z.lnot Z.leb Z.ltb];
        rewrite (not_in_byte _ Hv); eexists; split; reflexivity.
  - right. unfold _set_bit_in_register, bind, set_buffer0.
    rewrite (not_in_byte r Hr). eexists; split; reflexivity.
Qed.

End Primitives.

(** ** What the regulator methods do *)

Lemma in_range lo hi v : lo <= v <= hi -> (lo <=? v) && (v <=? hi) = true.
Proof.
  intros [Hlo Hhi]. apply andb_true_intro. split; now apply Z.leb_le.
Qed.

Lemma not_in_range lo hi v : v < lo \/ hi < v -> (lo <=? v) && (v <=? hi) = false.
Proof.
  intros Hv. destruct ((lo <=? v) && (v <=? hi)) eqn:E; [|reflexivity].
  apply andb_prop in E. destruct E as [E1 E2].
  apply Z.leb_le in E1. apply Z.leb_le in E2. lia.
Qed.

Lemma geb_true v lo : lo <= v -> (v >=? lo) = true.
Proof. intros Hv. rewrite Z.geb_leb. now apply Z.leb_le. Qed.

Lemma geb_false v lo : v < lo -> (v >=? lo) = false.
Proof. intros Hv. rewrite Z.geb_leb. now apply Z.leb_gt. Qed.

Lemma shiftl_1_byte num : 0 <= num <= 5 -> 0 <= Z.shiftl 1 num < 256.
Proof.
  intros Hn. rewrite Z.shiftl_1_l. split.
  - apply Z.pow_nonneg. lia.
  - apply Z.le_lt_trans with (2 ^ 5); [|reflexivity].
    apply Z.pow_le_mono_r; lia.
Qed.

Lemma code_byte v step hi :
  0 < step -> 500 <= v <= hi -> hi <= 3500 -> 50 <= step ->
  0 <= (v - 500) / step < 256.
Proof.
  intros Hs Hv Hhi Hst. split.
  - apply Z.div_pos; lia.
  - apply Z.div_lt_upper_bound; lia.
Qed.

Section Regulators.
Context {D : Type} `{Peripheral D}.

Lemma write_then_set_bit vr code er mask (s : AXP2101 D) :
  0 <= vr < 256 -> 0 <= code < 256 -> 0 <= er < 256 -> 0 <= mask < 256 ->
  (_write_register8 vr code ;;; _set_bit_in_register er mask true) s =
    (Ok tt, programmed s vr code er mask).
Proof.
  intros Hvr Hcode Her Hmask. unfold bind.
  rewrite write_register8_run by assumption.
  rewrite set_bit_in_register_run; try assumption.
  - unfold programmed, after, regs, bus. cbn -[merged].
    rewrite <- app_assoc. reflexivity.
  - apply merged_byte; [apply peek_octet | assumption].
Qed.

Lemma clear_bit er mask (s : AXP2101 D) :
  0 <= er < 256 ->
  _set_bit_in_register er mask false s = (Ok tt, switched_off s er mask).
Proof.
  intros Her. rewrite set_bit_in_register_run; [reflexivity | assumption |].
  apply land_byte, peek_octet.
Qed.

Lemma set_ldo_on num v (s : AXP2101 D) :
  0 <= num <= 5 -> 500 <= v <= 3500 ->
  __set_ldo num v s =
    (Ok tt, programmed s (num + 0x92) ((v - 500) / 100) 0x90 (Z.shiftl 1 num)).
Proof.
  intros Hn Hv. unfold __set_ldo.
  rewrite (in_range 0 5 num Hn), (in_range 0 3500 v) by lia.
  rewrite geb_true by lia. cbv zeta.
  apply write_then_set_bit; try lia.
  - apply (code_byte v 100 3500); lia.
  - now apply shiftl_1_byte.
Qed.

Lemma set_ldo_off num v (s : AXP2101 D) :
  0 <= num <= 5 -> 0 <= v < 500 ->
  __set_ldo num v s = (Ok tt, switched_off s 0x90 (Z.shiftl 1 num)).
Proof.
  intros Hn Hv. unfold __set_ldo.
  rewrite (in_range 0 5 num Hn), (in_range 0 3500 v) by lia.
  rewrite geb_false by lia. cbv zeta.
  apply clear_bit. lia.
Qed.

Lemma set_ldo_out_of_range num v (s : AXP2101 D) :
  0 <= num <= 5 -> v < 0 \/ 3500 < v ->
  __set_ldo num v s =
    (Raise (ValueError "LDO voltage out of range. Allowed range 0-3500 mV"), s).
Proof.
  intros Hn Hv. unfold __set_ldo.
  rewrite (in_range 0 5 num Hn), (not_in_range 0 3500 v Hv). reflexivity.
Qed.

Lemma set_dldo1_on v (s : AXP2101 D) :
  500 <= v <= 3400 ->
  __set_dldo 1 v s = (Ok tt, programmed s 0x99 ((v - 500) / 100) 0x90 0x80).
Proof.
  intros Hv. unfold __set_dldo.
  change ((1 <=? 1) && (1 <=? 2)) with true. change (1 =? 1) with true.
  cbv beta iota zeta.
  rewrite (in_range 0 3400 v) by lia. rewrite geb_true by lia.
  apply write_then_set_bit; try lia.
  apply (code_byte v 100 3400); lia.
Qed.

Lemma set_dldo2_on v (s : AXP2101 D) :
  500 <= v <= 1400 ->
  __set_dldo 2 v s = (Ok tt, programmed s 0x9A ((v - 500) / 50) 0x91 0x01).
Proof.
  intros Hv. unfold __set_dldo.
  change ((1 <=? 2) && (2 <=? 2)) with true. change (2 =? 1) with false.
  cbv beta iota zeta.
  rewrite (in_range 0 1400 v) by lia. rewrite geb_true by lia.
  apply write_then_set_bit; try lia.
  apply (code_byte v 50 1400); lia.
Qed.

Lemma set_dldo1_off v (s : AXP2101 D) :
  0 <= v < 500 -> __set_dldo 1 v s = (Ok tt, switched_off s 0x90 0x80).
Proof.
  intros Hv. unfold __set_dldo.
  change ((1 <=? 1) && (1 <=? 2)) with true. change (1 =? 1) with true.
  cbv beta iota zeta.
  rewrite (in_range 0 3400 v) by lia. rewrite geb_false by lia.
  apply clear_bit. lia.
Qed.

Lemma set_dldo2_off v (s : AXP2101 D) :
  0 <= v < 500 -> __set_dldo 2 v s = (Ok tt, switched_off s 0x91 0x01).
Proof.
  intros Hv. unfold __set_dldo.
  change ((1 <=? 2) && (2 <=? 2)) with true. change (2 =? 1) with false.
  cbv beta iota zeta.
  rewrite (in_range 0 1400 v) by lia. rewrite geb_false by lia.
  apply clear_bit. lia.
Qed.

Lemma set_dldo1_out_of_range v (s : AXP2101 D) :
  v < 0 \/ 3400 < v ->
  __set_dldo 1 v s =
    (Raise (ValueError "LDO voltage out of range. Allowed range 0-3400 mV"), s).
Proof.
  intros Hv. unfold __set_dldo.
  change ((1 <=? 1) && (1 <=? 2)) with true. change (1 =? 1) with true.
  cbv beta iota zeta.
  rewrite (not_in_range 0 3400 v Hv). reflexivity.
Qed.

Lemma set_dldo2_out_of_range v (s : AXP2101 D) :
  v < 0 \/ 1400 < v ->
  __set_dldo 2 v s =
    (Raise (ValueError "LDO voltage out of range. Allowed range 0-1400 mV"), s).
Proof.
  intros Hv. unfold __set_dldo.
  change ((1 <=? 2) && (2 <=? 2)) with true. change (2 =? 1) with false.
  cbv beta iota zeta.
  rewrite (not_in_range 0 1400 v Hv). reflexivity.
Qed.

(** The three regimes of [setLdo], by channel table. *)

Lemma setLdo_on c v (s : AXP2101 D) :
  500 <= v <= channelMax c ->
  setLdo c v s =
    (Ok tt, programmed s (voltageRegister c) ((v - 500) / channelStep c)
                       (enableRegister c) (enableMask c)).
Proof.
  intros Hv. destruct c; cbn in Hv;
    first [ exact (set_ldo_on 0 v s ltac:(lia) Hv)
          | exact (set_ldo_on 1 v s ltac:(lia) Hv)
          | exact (set_ldo_on 2 v s ltac:(lia) Hv)
          | exact (set_ldo_on 3 v s ltac:(lia) Hv)
          | exact (set_ldo_on 4 v s ltac:(lia) Hv)
          | exact (set_ldo_on 5 v s ltac:(lia) Hv)
          | exact (set_dldo1_on v s Hv)
          | exact (set_dldo2_on v s Hv) ].
Qed.

Lemma setLdo_off c v (s : AXP2101 D) :
  0 <= v < 500 ->
  setLdo c v s = (Ok tt, switched_off s (enableRegister c) (enableMask c)).
Proof.
  intros Hv. destruct c;
    first [ exact (set_ldo_off 0 v s ltac:(lia) Hv)
          | exact (set_ldo_off 1 v s ltac:(lia) Hv)
          | exact (set_ldo_off 2 v s ltac:(lia) Hv)
          | exact (set_ldo_off 3 v s ltac:(lia) Hv)
          | exact (set_ldo_off 4 v s ltac:(lia) Hv)
          | exact (set_ldo_off 5 v s ltac:(lia) Hv)
          | exact (set_dldo1_off v s Hv)
          | exact (set_dldo2_off v s Hv) ].
Qed.

Lemma setLdo_out_of_range c v (s : AXP2101 D) :
  v < 0 \/ channelMax c < v ->
  setLdo c v s = (Raise (ValueError (range_message c)), s).
Proof.
  intros Hv. destruct c; cbn in Hv;
    first [ exact (set_ldo_out_of_range 0 v s ltac:(lia) Hv)
          | exact (set_ldo_out_of_range 1 v s ltac:(lia) Hv)
          | exact (set_ldo_out_of_range 2 v s ltac:(lia) Hv)
          | exact (set_ldo_out_of_range 3 v s ltac:(lia) Hv)
          | exact (set_ldo_out_of_range 4 v s ltac:(lia) Hv)
          | exact (set_ldo_out_of_range 5 v s ltac:(lia) Hv)
          | exact (set_dldo1_out_of_range v s Hv)
          | exact (set_dldo2_out_of_range v s Hv) ].
Qed.

Lemma read_enable_then_code vr step er mask (s : AXP2101 D) :
  0 <= vr < 256 -> 0 <= er < 256 ->
  (e <- _read_register8 er ;;
   if negb (Z.land e mask =? 0)
   then (reg_value <- _read_register8 vr ;; ret (reg_value * step + 500))
   else ret 0) s = read_back s vr step er mask.
Proof.
  intros Hvr Her. unfold bind, read_back.
  rewrite read_register8_run by assumption.
  destruct (negb (Z.land (peek (regs s) er) mask =? 0)); [|reflexivity].
  rewrite read_register8_run by assumption.
  unfold after, regs, bus, ret. cbn. rewrite <- app_assoc. reflexivity.
Qed.

Lemma get_ldo_run num (s : AXP2101 D) :
  0 <= num <= 5 ->
  __get_ldo num s = read_back s (num + 0x92) 100 0x90 (Z.shiftl 1 num).
Proof.
  intros Hn. unfold __get_ldo. rewrite (in_range 0 5 num Hn). cbv zeta.
  apply read_enable_then_code; lia.
Qed.

Lemma get_dldo1_run (s : AXP2101 D) :
  __get_dldo 1 s = read_back s 0x99 100 0x90 0x80.
Proof.
  unfold __get_dldo.
  change ((1 <=? 1) && (1 <=? 2)) with true. change (1 =? 1) with true.
  cbv beta iota zeta. apply read_enable_then_code; lia.
Qed.

Lemma get_dldo2_run (s : AXP2101 D) :
  __get_dldo 2 s = read_back s 0x9A 50 0x91 0x01.
Proof.
  unfold __get_dldo.
  change ((1 <=? 2) && (2 <=? 2)) with true. change (2 =? 1) with false.
  cbv beta iota zeta. apply read_enable_then_code; lia.
Qed.

Lemma getLdo_run c (s : AXP2101 D) :
  getLdo c s =
    read_back s (voltageRegister c) (channelStep c) (enableRegister c) (enableMask c).
Proof.
  destruct c;
    first [ exact (get_ldo_run 0 s ltac:(lia))
          | exact (get_ldo_run 1 s ltac:(lia))
          | exact (get_ldo_run 2 s ltac:(lia))
          | exact (get_ldo_run 3 s ltac:(lia))
          | exact (get_ldo_run 4 s ltac:(lia))
          | exact (get_ldo_run 5 s ltac:(lia))
          | exact (get_dldo1_run s)
          | exact (get_dldo2_run s) ].
Qed.

End Regulators.

(** ** The plain register file *)

Section RegisterFile.
Implicit Types (m : gmap Z Z) (a b v : Z).

Lemma peek_poke_same m a v : 0 <= v < 256 -> peek (poke m a v) a = v.
Proof.
  intros Hv. cbn. rewrite lookup_insert_eq. cbn. unfold octet.
  now apply Z.mod_small.
Qed.

Lemma peek_poke_other m a b v : a <> b -> peek (poke m a v) b = peek m b.
Proof. intros Hab. cbn. now rewrite lookup_insert_ne. Qed.

Lemma voltage_enable_disjoint c c' : voltageRegister c <> enableRegister c'.
Proof. destruct c, c'; discriminate. Qed.

End RegisterFile.

(** ** Regulator round trip *)

Section RoundTrip.
Implicit Types (s : AXP2101 (gmap Z Z)) (c : RegulatorChannel).

Lemma enable_mask_nonzero c : enableMask c <> 0.
Proof. destruct c; discriminate. Qed.

Lemma enable_mask_byte c : 0 <= enableMask c < 256.
Proof. destruct c; cbn; lia. Qed.

Lemma channel_code_byte c v :
  500 <= v <= channelMax c -> 0 <= (v - 500) / channelStep c < 256.
Proof.
  intros Hv. apply (code_byte v (channelStep c) (channelMax c)); try assumption;
    destruct c; cbn; lia.
Qed.

(** After a channel was programmed, its code register holds the code and
    its enable bit reads as set. *)
Lemma programmed_code s c code :
  0 <= code < 256 ->
  peek (regs (programmed s (voltageRegister c) code (enableRegister c) (enableMask c)))
       (voltageRegister c) = code.
Proof.
  intros Hcode. unfold programmed, after, regs. cbn [chip _device].
  rewrite peek_poke_other by (apply not_eq_sym, voltage_enable_disjoint).
  now apply peek_poke_same.
Qed.

Lemma programmed_enabled s c code :
  enabled c (regs (programmed s (voltageRegister c) code
                              (enableRegister c) (enableMask c))) = true.
Proof.
  unfold enabled, programmed, after, regs. cbn [chip _device].
  rewrite peek_poke_same
    by (apply merged_byte; [apply peek_octet | apply enable_mask_byte]).
  unfold merged. rewrite lor_mask_set.
  apply negb_true_iff, Z.eqb_neq, enable_mask_nonzero.
Qed.

(** After a channel was switched off, its enable bit reads as clear and
    its code register is as before. *)
Lemma switched_off_enabled s c :
  enabled c (regs (switched_off s (enableRegister c) (enableMask c))) = false.
Proof.
  unfold enabled, switched_off, after, regs. cbn [chip _device].
  rewrite peek_poke_same by (apply land_byte, peek_octet).
  unfold merged. rewrite land_lnot_mask_clear. reflexivity.
Qed.

Lemma switched_off_code s c :
  regs (switched_off s (enableRegister c) (enableMask c)) !! voltageRegister c
  = regs s !! voltageRegister c.
Proof.
  unfold switched_off, after, regs. cbn [chip _device poke RegisterMap].
  apply lookup_insert_ne, not_eq_sym, voltage_enable_disjoint.
Qed.

Lemma read_back_disabled s c :
  enabled c (regs s) = false ->
  read_back s (voltageRegister c) (channelStep c) (enableRegister c) (enableMask c) =
    (Ok 0,
     after (regs s)
           (bus s ++ [TxWriteThenRead [enableRegister c] [peek (regs s) (enableRegister c)]])
           (peek (regs s) (enableRegister c)) (byte1 (_buffer s))).
Proof. unfold enabled, read_back. now intros ->. Qed.

Lemma read_back_enabled s c :
  enabled c (regs s) = true ->
  fst (read_back s (voltageRegister c) (channelStep c) (enableRegister c) (enableMask c)) =
    Ok (peek (regs s) (voltageRegister c) * channelStep c + 500).
Proof. unfold enabled, read_back. now intros ->. Qed.

End RoundTrip.

(** C1. For every channel [c] and every voltage [v] in
    [[500, channelMax c]] of the form [500 + k * channelStep c], programming
    the channel succeeds, the code register then holds [(v - 500)] divided by
    the step (truncating division), reading the channel back decodes
    [code * step + 500], and that is exactly [v]. *)
Theorem ldo_set_get_roundtrip
    (c : RegulatorChannel) (v k : Z) (s : AXP2101 (gmap Z Z)) :
  500 <= v <= channelMax c ->
  v = 500 + k * channelStep c ->
  fst (setLdo c v s) = Ok tt /\
  peek (regs (snd (setLdo c v s))) (voltageRegister c) = (v - 500) ÷ channelStep c /\
  fst (getLdo c (snd (setLdo c v s))) =
    Ok (peek (regs (snd (setLdo c v s))) (voltageRegister c) * channelStep c + 500) /\
  fst (getLdo c (snd (setLdo c v s))) = Ok v.
Proof.
  intros Hv Hk.
  assert (Hstep : 0 < channelStep c) by (destruct c; cbn; lia).
  rewrite (setLdo_on c v s Hv). cbn [fst snd].
  rewrite getLdo_run, read_back_enabled by apply programmed_enabled.
  rewrite programmed_code by now apply channel_code_byte.
  rewrite Z.quot_div_nonneg by lia.
  repeat split; try reflexivity.
  f_equal. replace (v - 500) with (k * channelStep c) by lia.
  rewrite Z.div_mul by lia. lia.
Qed.

Lemma ldo_set_get_roundtrip_witness :
  500 <= 1250 <= channelMax DLDO2 /\
  1250 = 500 + 15 * channelStep DLDO2 /\
  fst (getLdo DLDO2 (snd (setLdo DLDO2 1250 (attach (∅ : gmap Z Z))))) = Ok 1250.
Proof.
  assert (H1 : 500 <= 1250 <= channelMax DLDO2) by (cbn; lia).
  assert (H2 : 1250 = 500 + 15 * channelStep DLDO2) by reflexivity.
  split; [exact H1 | split; [exact H2 |]].
  exact (proj2 (proj2 (proj2
           (ldo_set_get_roundtrip DLDO2 1250 15 (attach ∅) H1 H2)))).
Defined.

(** ** Switching a channel off *)

Lemma switch_off_traffic_spares_code
    {D : Type} `{Peripheral D} (c : RegulatorChannel) (s : AXP2101 D) :
  existsb (writes_register (voltageRegister c)) (switch_off_traffic c s) = false.
Proof.
  unfold switch_off_traffic. cbn [existsb writes_register].
  rewrite orb_false_r. apply Z.eqb_neq, not_eq_sym, voltage_enable_disjoint.
Qed.

(** C2. For every channel [c] and every [v] with [1 <= v <= 499],
    [setLdo c v] does exactly what [setLdo c 0] does: it returns normally,
    the enable bit of [c] reads as clear afterwards, the code register of
    [c] is as before, and the only bus traffic is the read-modify-write of
    the enable register. *)
Theorem ldo_below_minimum_disables
    (c : RegulatorChannel) (v : Z) (s : AXP2101 (gmap Z Z)) :
  1 <= v <= 499 ->
  setLdo c v s = setLdo c 0 s /\
  fst (setLdo c v s) = Ok tt /\
  enabled c (regs (snd (setLdo c v s))) = false /\
  regs (snd (setLdo c v s)) !! voltageRegister c = regs s !! voltageRegister c /\
  bus (snd (setLdo c v s)) = bus s ++ switch_off_traffic c s /\
  existsb (writes_register (voltageRegister c)) (switch_off_traffic c s) = false.
Proof.
  intros Hv.
  rewrite (setLdo_off c v s) by lia. rewrite (setLdo_off c 0 s) by lia.
  cbn [fst snd]. repeat split.
  - apply switched_off_enabled.
  - apply switched_off_code.
  - apply switch_off_traffic_spares_code.
Qed.

Lemma ldo_below_minimum_disables_witness :
  1 <= 250 <= 499 /\
  setLdo BLDO1 250 (attach (<[0x90 := 0xFF]> ∅ : gmap Z Z)) =
  setLdo BLDO1 0 (attach (<[0x90 := 0xFF]> ∅ : gmap Z Z)).
Proof.
  assert (H1 : 1 <= 250 <= 499) by lia.
  split; [exact H1 |].
  exact (proj1 (ldo_below_minimum_disables BLDO1 250 (attach (<[0x90 := 0xFF]> ∅)) H1)).
Defined.

(** C3. In every register state [s] in which the enable bit of [c] is
    clear, [getLdo c] returns 0 after reading the enable register only,
    whatever the code register holds (also after any [code] is stored
    there).  And from every register state [t], whether the enable bit of
    [c] is set or clear in it, [setLdo c 0] returns normally, leaves the
    enable bit clear and the code register as it was, writes nothing to the
    code register, and is followed by a [getLdo c] of 0. *)
Theorem ldo_disabled_reads_zero
    (c : RegulatorChannel) (code : Z) (s t : AXP2101 (gmap Z Z)) :
  enabled c (regs s) = false ->
  fst (getLdo c s) = Ok 0 /\
  bus (snd (getLdo c s)) =
    bus s ++ [TxWriteThenRead [enableRegister c] [peek (regs s) (enableRegister c)]] /\
  fst (getLdo c (after (poke (regs s) (voltageRegister c) code) (bus s)
                       (byte0 (_buffer s)) (byte1 (_buffer s)))) = Ok 0 /\
  fst (setLdo c 0 t) = Ok tt /\
  enabled c (regs (snd (setLdo c 0 t))) = false /\
  regs (snd (setLdo c 0 t)) !! voltageRegister c = regs t !! voltageRegister c /\
  bus (snd (setLdo c 0 t)) = bus t ++ switch_off_traffic c t /\
  existsb (writes_register (voltageRegister c)) (switch_off_traffic c t) = false /\
  fst (getLdo c (snd (setLdo c 0 t))) = Ok 0.
Proof.
  intros Hoff.
  rewrite (setLdo_off c 0 t) by lia. cbn [fst snd].
  rewrite !getLdo_run.
  rewrite (read_back_disabled s c Hoff).
  rewrite (read_back_disabled (switched_off t _ _) c (switched_off_enabled t c)).
  rewrite read_back_disabled.
  - cbn [fst snd]. repeat split.
    + apply switched_off_enabled.
    + apply switched_off_code.
    + apply switch_off_traffic_spares_code.
  - unfold enabled, after, regs in *. cbn [chip _device].
    rewrite peek_poke_other by apply voltage_enable_disjoint. exact Hoff.
Qed.

Lemma ldo_disabled_reads_zero_witness :
  enabled ALDO3 (regs (attach (<[0x94 := 17]> (<[0x90 := 0xFB]> ∅) : gmap Z Z))) = false /\
  fst (getLdo ALDO3 (attach (<[0x94 := 17]> (<[0x90 := 0xFB]> ∅) : gmap Z Z))) = Ok 0 /\
  enabled ALDO3 (regs (attach (<[0x94 := 17]> (<[0x90 := 0xFF]> ∅) : gmap Z Z))) = true /\
  enabled ALDO3
    (regs (snd (setLdo ALDO3 0
                  (attach (<[0x94 := 17]> (<[0x90 := 0xFF]> ∅) : gmap Z Z))))) = false /\
  regs (snd (setLdo ALDO3 0
               (attach (<[0x94 := 17]> (<[0x90 := 0xFF]> ∅) : gmap Z Z)))) !! 0x94
  = Some 17.
Proof.
  assert (H1 : enabled ALDO3
                 (regs (attach (<[0x94 := 17]> (<[0x90 := 0xFB]> ∅) : gmap Z Z))) = false)
    by (vm_compute; reflexivity).
  pose proof (ldo_disabled_reads_zero ALDO3 31
                (attach (<[0x94 := 17]> (<[0x90 := 0xFB]> ∅) : gmap Z Z))
                (attach (<[0x94 := 17]> (<[0x90 := 0xFF]> ∅) : gmap Z Z)) H1)
    as (Hget & _ & _ & _ & Hclear & Hcode & _).
  split; [exact H1 |]. split; [exact Hget |].
  split; [vm_compute; reflexivity |]. split; [exact Hclear |].
  exact Hcode.
Defined.

(** ** Rejected voltages *)

(** C4. For every channel [c] and every [v] above [channelMax c] or below
    0, [setLdo c v] raises the range error and leaves the driver, the
    peripheral and the record of bus transactions exactly as they were: no
    transaction of any kind was issued. *)
Theorem ldo_out_of_range_raises
    {D : Type} `{Peripheral D} (c : RegulatorChannel) (v : Z) (s : AXP2101 D) :
  v > channelMax c \/ v < 0 ->
  setLdo c v s = (Raise (ValueError (range_message c)), s) /\
  bus (snd (setLdo c v s)) = bus s /\
  regs (snd (setLdo c v s)) = regs s.
Proof.
  intros Hv. rewrite setLdo_out_of_range by lia. repeat split.
Qed.

Lemma ldo_out_of_range_raises_witness :
  (1450 > channelMax DLDO2 \/ 1450 < 0) /\
  setLdo DLDO2 1450 (attach (∅ : gmap Z Z)) =
    (Raise (ValueError "LDO voltage out of range. Allowed range 0-1400 mV"),
     attach (∅ : gmap Z Z)).
Proof.
  assert (H1 : 1450 > channelMax DLDO2 \/ 1450 < 0) by (left; cbn; lia).
  split; [exact H1 |].
  exact (proj1 (ldo_out_of_range_raises DLDO2 1450 (attach ∅) H1)).
Defined.

(** ** Battery status *)

Lemma charging_code_range r : 0 <= charging_code r <= 3.
Proof.
  unfold charging_code. rewrite Z.shiftr_land.
  change (Z.shiftr 0x60 5) with (Z.ones 2). rewrite Z.land_ones by lia.
  pose proof (Z.mod_pos_bound (Z.shiftr r 5) (2 ^ 2) ltac:(lia)) as Hb.
  change (2 ^ 2) with 4 in *. lia.
Qed.

(** The method's chain of comparisons is the classification. *)
Lemma classify_chain {D A} (code : Z) (k : option BatteryStatus.t -> M D A) :
  (if code =? 0 then k (Some BatteryStatus.STANDBY)
   else if code =? 1 then k (Some BatteryStatus.CHARGING)
   else if code =? 2 then k (Some BatteryStatus.DISCHARGING)
   else k None) = k (classify code).
Proof.
  destruct (Z.eqb_spec code 0) as [->|H0]; [reflexivity|].
  destruct (Z.eqb_spec code 1) as [->|H1]; [reflexivity|].
  destruct (Z.eqb_spec code 2) as [->|H2]; [reflexivity|].
  destruct code as [|[p|p|]|]; try reflexivity; try contradiction;
    destruct p; try reflexivity; contradiction.
Qed.

(** C5. [battery_status] never raises.  When [is_battery_connected] is
    false it returns [None] having read register 0x00 only; otherwise it
    reads register 0x01, takes [(r AND 0b01100000) >> 5], a code in 0..3,
    and returns STANDBY for 0, CHARGING for 1, DISCHARGING for 2 and [None]
    for 3. *)
Theorem battery_status_decodes {D : Type} `{Peripheral D} (s : AXP2101 D) :
  fst (is_battery_connected s) = Ok (battery_present (regs s)) /\
  battery_status s =
    (if battery_present (regs s)
     then (Ok (classify (Z.shiftr (Z.land (peek (regs s) 0x01) 0x60) 5)),
           after (regs s)
                 (bus s ++ [TxWriteThenRead [0x00] [peek (regs s) 0x00];
                            TxWriteThenRead [0x01] [peek (regs s) 0x01]])
                 (peek (regs s) 0x01) (byte1 (_buffer s)))
     else (Ok None,
           after (regs s)
                 (bus s ++ [TxWriteThenRead [0x00] [peek (regs s) 0x00]])
                 (peek (regs s) 0x00) (byte1 (_buffer s)))) /\
  0 <= Z.shiftr (Z.land (peek (regs s) 0x01) 0x60) 5 <= 3 /\
  classify 0 = Some BatteryStatus.STANDBY /\
  classify 1 = Some BatteryStatus.CHARGING /\
  classify 2 = Some BatteryStatus.DISCHARGING /\
  classify 3 = None.
Proof.
  split; [|split; [|split; [apply charging_code_range | repeat split]]].
  - unfold is_battery_connected, bind.
    rewrite read_register8_run by lia. reflexivity.
  - unfold battery_status, is_battery_connected, bind at 1 2.
    rewrite read_register8_run by lia. unfold ret at 1.
    fold (battery_present (regs s)).
    destruct (battery_present (regs s)); cbn [negb]; [|reflexivity].
    unfold bind. rewrite read_register8_run by lia.
    rewrite classify_chain. unfold ret, after, regs, bus. cbn.
    rewrite <- app_assoc. reflexivity.
Qed.

(** ** Power key *)

Section PowerKey.
Context {D : Type} `{Peripheral D}.

Lemma power_key_was_pressed_run (s : AXP2101 D) :
  let v := peek (regs s) 0x49 in
  power_key_was_pressed s =
    (Ok (short_flag v, long_flag v),
     if short_flag v || long_flag v
     then after (poke (regs s) 0x49 0x0C) (bus s ++ poll_traffic v) 0x49 0x0C
     else after (regs s) (bus s ++ poll_traffic v) v (byte1 (_buffer s))).
Proof.
  intros v. unfold power_key_was_pressed, bind at 1.
  rewrite read_register8_run by lia.
  fold v. fold (short_flag v). fold (long_flag v). unfold poll_traffic.
  destruct (short_flag v || long_flag v); unfold bind.
  - rewrite write_register8_run by lia.
    unfold ret, after, regs, bus. cbn. rewrite <- app_assoc. reflexivity.
  - reflexivity.
Qed.

End PowerKey.

(** On the chip, one poll leaves both latched key flags clear. *)
Lemma poll_clears_flags (h : AXP2101 IrqChip) :
  let v := peek (regs (snd (power_key_was_pressed h))) 0x49 in
  short_flag v = false /\ long_flag v = false.
Proof.
  rewrite power_key_was_pressed_run. cbn [snd].
  destruct (short_flag (peek (regs h) 0x49) || long_flag (peek (regs h) 0x49)) eqn:E.
  - unfold after, regs. cbn [chip _device].
    cbn [peek poke IrqChip_Peripheral cells].
    change (0x49 =? IRQ_STATUS) with true. cbn [cells].
    rewrite lookup_insert_eq. cbn [default from_option].
    unfold id. set (w := Z.land _ (Z.lnot 12)).
    assert (Hw : octet w = w).
    { apply Z.mod_small. apply land_byte, octet_range. }
    rewrite Hw. unfold w, short_flag, long_flag.
    rewrite <- !Z.land_assoc.
    change (Z.land (Z.lnot 12) 8) with 0. change (Z.land (Z.lnot 12) 4) with 0.
    rewrite Z.land_0_r. split; reflexivity.
  - apply orb_false_elim in E. exact E.
Qed.

(** C6. One poll reads register 0x49 and reports
    [short = (v AND 0x08) != 0] and [long = (v AND 0x04) != 0]; it writes
    0x0C to register 0x49, after the read, exactly when one of the two is
    set, and issues nothing else.  On a chip whose register 0x49 clears the
    bits written as 1, a second poll right after the first reports
    (false, false). *)
Theorem power_key_poll_and_clear
    {D : Type} `{Peripheral D} (s : AXP2101 D) (h : AXP2101 IrqChip) :
  fst (power_key_was_pressed s) =
    Ok (negb (Z.land (peek (regs s) 0x49) 0x08 =? 0),
        negb (Z.land (peek (regs s) 0x49) 0x04 =? 0)) /\
  bus (snd (power_key_was_pressed s)) =
    bus s ++ TxWriteThenRead [0x49] [peek (regs s) 0x49] ::
      (if negb (Z.land (peek (regs s) 0x49) 0x08 =? 0)
          || negb (Z.land (peek (regs s) 0x49) 0x04 =? 0)
       then [TxWrite [0x49; 0x0C]] else []) /\
  existsb (writes_register 0x49) (poll_traffic (peek (regs s) 0x49)) =
    negb (Z.land (peek (regs s) 0x49) 0x08 =? 0)
    || negb (Z.land (peek (regs s) 0x49) 0x04 =? 0) /\
  fst (power_key_was_pressed (snd (power_key_was_pressed h))) = Ok (false, false).
Proof.
  repeat split.
  - now rewrite power_key_was_pressed_run.
  - rewrite power_key_was_pressed_run. cbn [snd]. unfold poll_traffic, short_flag, long_flag.
    now destruct (_ || _).
  - unfold poll_traffic, short_flag, long_flag. now destruct (_ || _).
  - rewrite (power_key_was_pressed_run (snd (power_key_was_pressed h))). cbn [fst].
    destruct (poll_clears_flags h) as [-> ->]. reflexivity.
Qed.

(** The clearing is the chip's doing: on a plain register file the 0x0C
    written by the first poll is what the second poll reads back. *)
Example second_poll_on_plain_register_file :
  fst (power_key_was_pressed
         (snd (power_key_was_pressed (attach (<[0x49 := 0x08]> ∅ : gmap Z Z)))))
  = Ok (true, true).
Proof. vm_compute. reflexivity. Qed.

(** ** The 14-bit read *)

Lemma lor_below_pow2 a b n :
  0 <= n -> 0 <= a < 2 ^ n -> 0 <= b < 2 ^ n -> 0 <= Z.lor a b < 2 ^ n.
Proof.
  intros Hn Ha Hb.
  assert (E : Z.land (Z.lor a b) (Z.ones n) = Z.lor a b).
  { rewrite Z.land_lor_distr_l, !Z.land_ones by assumption.
    now rewrite !Z.mod_small by assumption. }
  rewrite <- E, Z.land_ones by assumption. apply Z.mod_pos_bound. lia.
Qed.

Lemma compose14_range b0 b1 :
  0 <= b1 < 256 -> 0 <= Z.lor (Z.shiftl (Z.land b0 0x3F) 8) b1 < 0x4000.
Proof.
  intros Hb1. change 0x4000 with (2 ^ 14). apply lor_below_pow2; [lia | | lia].
  rewrite Z.shiftl_mul_pow2 by lia.
  change 0x3F with (Z.ones 6). rewrite Z.land_ones by lia.
  pose proof (Z.mod_pos_bound b0 (2 ^ 6) ltac:(lia)) as Hm.
  change (2 ^ 6) with 64 in *. change (2 ^ 8) with 256. change (2 ^ 14) with 16384. lia.
Qed.

(** C7. [_read_register14] reads two consecutive octets and returns
    [(byte0 AND 0x3F) << 8 | byte1], a value below 0x4000; when the two
    octets are 0xFF and 0xAB it returns 0x3FAB. *)
Theorem read_register14_composes
    {D : Type} `{Peripheral D} (register : Z) (s : AXP2101 D) :
  0 <= register < 256 ->
  fst (_read_register14 register s) =
    Ok (Z.lor (Z.shiftl (Z.land (peek (regs s) register) 0x3F) 8)
              (peek (regs s) (register + 1))) /\
  bus (snd (_read_register14 register s)) =
    bus s ++ [TxWriteThenRead [register]
                [peek (regs s) register; peek (regs s) (register + 1)]] /\
  0 <= Z.lor (Z.shiftl (Z.land (peek (regs s) register) 0x3F) 8)
             (peek (regs s) (register + 1)) < 0x4000 /\
  (peek (regs s) register = 0xFF -> peek (regs s) (register + 1) = 0xAB ->
   fst (_read_register14 register s) = Ok 0x3FAB).
Proof.
  intros Hr. rewrite read_register14_run by assumption. cbn [fst snd].
  repeat split; try (apply compose14_range, peek_octet).
  intros -> ->. reflexivity.
Qed.

Lemma read_register14_composes_witness :
  0 <= 0x34 < 256 /\
  fst (_read_register14 0x34
         (attach (<[0x34 := 0xFF]> (<[0x35 := 0xAB]> ∅) : gmap Z Z))) = Ok 0x3FAB.
Proof.
  assert (H1 : 0 <= 0x34 < 256) by lia.
  split; [exact H1 |].
  apply (proj2 (proj2 (proj2
           (read_register14_composes 0x34
              (attach (<[0x34 := 0xFF]> (<[0x35 := 0xAB]> ∅) : gmap Z Z)) H1))));
    vm_compute; reflexivity.
Defined.

(** ** Battery level *)

(** C8, as the code has it.  [battery_level] returns the octet of register
    0xA4 unchanged: whatever octet [b] the register holds, the accessor
    returns [b], a value between 0 and 255; it is within 0..100 exactly when
    the register's octet is. *)
Theorem battery_level_is_raw_octet
    {D : Type} `{Peripheral D} (s : AXP2101 D) (m : gmap Z Z) (b : Z) :
  0 <= b < 256 ->
  fst (battery_level s) = Ok (peek (regs s) 0xA4) /\
  0 <= peek (regs s) 0xA4 <= 255 /\
  bus (snd (battery_level s)) = bus s ++ [TxWriteThenRead [0xA4] [peek (regs s) 0xA4]] /\
  fst (battery_level (attach (<[0xA4 := b]> m))) = Ok b.
Proof.
  intros Hb. unfold battery_level. rewrite !read_register8_run by lia.
  cbn [fst snd]. repeat split.
  - apply peek_octet.
  - pose proof (peek_octet (regs s) 0xA4). lia.
  - f_equal. exact (peek_poke_same m 0xA4 b Hb).
Qed.

Lemma battery_level_is_raw_octet_witness :
  0 <= 57 < 256 /\
  fst (battery_level (attach (<[0xA4 := 57]> ∅ : gmap Z Z))) = Ok 57.
Proof.
  assert (H1 : 0 <= 57 < 256) by lia.
  split; [exact H1 |].
  exact (proj2 (proj2 (proj2
           (battery_level_is_raw_octet (attach (∅ : gmap Z Z)) ∅ 57 H1)))).
Defined.

(** With 200 in register 0xA4 the accessor returns 200, above 100. *)
Lemma battery_level_above_100 :
  fst (battery_level (attach (<[0xA4 := 200]> ∅ : gmap Z Z))) = Ok 200 /\
  ~ (0 <= 200 <= 100).
Proof. split; [vm_compute; reflexivity | lia]. Qed.

(** ** Programming ALDO/BLDO channels *)

(** C9. [setLdo ALDO1 1800] computes the code [(1800 - 500) / 100 = 13],
    writes 13 to register 0x92, then reads register 0x90 and writes it back
    with bit 0x01 set, in this order.  For every channel number 0..5 and
    every voltage in 500..3500 the code goes to register [num + 0x92] and
    the enable bit is [1 << num] of register 0x90. *)
Theorem set_ldo_code_then_enable
    (num v : Z) (s : AXP2101 (gmap Z Z)) :
  0 <= num <= 5 ->
  500 <= v <= 3500 ->
  (1800 - 500) / 100 = 13 /\
  fst (setLdo ALDO1 1800 s) = Ok tt /\
  bus (snd (setLdo ALDO1 1800 s)) =
    bus s ++ [TxWrite [0x92; 13];
              TxWriteThenRead [0x90] [peek (regs s) 0x90];
              TxWrite [0x90; Z.lor (peek (regs s) 0x90) 0x01]] /\
  regs (snd (setLdo ALDO1 1800 s)) =
    <[0x90 := Z.lor (peek (regs s) 0x90) 0x01]> (<[0x92 := 13]> (regs s)) /\
  fst (__set_ldo num v s) = Ok tt /\
  bus (snd (__set_ldo num v s)) =
    bus s ++ [TxWrite [num + 0x92; (v - 500) / 100];
              TxWriteThenRead [0x90] [peek (regs s) 0x90];
              TxWrite [0x90; Z.lor (peek (regs s) 0x90) (Z.shiftl 1 num)]] /\
  regs (snd (__set_ldo num v s)) =
    <[0x90 := Z.lor (peek (regs s) 0x90) (Z.shiftl 1 num)]>
      (<[num + 0x92 := (v - 500) / 100]> (regs s)).
Proof.
  intros Hn Hv.
  rewrite (setLdo_on ALDO1 1800 s) by (cbn; lia).
  rewrite (set_ldo_on num v s Hn Hv).
  unfold programmed, after, regs, bus, merged. cbn [fst snd chip wire _device].
  cbn [voltageRegister enableRegister enableMask channelStep].
  rewrite !peek_poke_other by lia.
  repeat split.
Qed.

Lemma set_ldo_code_then_enable_witness :
  0 <= 4 <= 5 /\ 500 <= 3300 <= 3500 /\
  bus (snd (__set_ldo 4 3300 (attach (∅ : gmap Z Z)))) =
    [TxWrite [0x96; 28]; TxWriteThenRead [0x90] [0]; TxWrite [0x90; 0x10]].
Proof.
  assert (H1 : 0 <= 4 <= 5) by lia.
  assert (H2 : 500 <= 3300 <= 3500) by lia.
  split; [exact H1 | split; [exact H2 |]].
  exact (proj1 (proj2 (proj2 (proj2 (proj2 (proj2
           (set_ldo_code_then_enable 4 3300 (attach (∅ : gmap Z Z)) H1 H2))))))).
Defined.

(** ** Frame of the enable-bit updates *)

Section Frame.
Implicit Types (m : gmap Z Z) (c : RegulatorChannel).

Lemma merged_outside old mask b :
  Z.land (merged old mask b) (Z.lnot mask) = Z.land old (Z.lnot mask).
Proof. destruct b; cbn; [apply lor_outside | apply land_lnot_outside]. Qed.

(** Two channels that share an enable register have disjoint enable bits. *)
Lemma enable_bits_disjoint c c' :
  c <> c' -> enableRegister c = enableRegister c' ->
  Z.land (enableMask c) (enableMask c') = 0 /\
  Z.land (Z.lnot (enableMask c)) (enableMask c') = enableMask c'.
Proof. destruct c, c'; intros Hne Hreg; try congruence; try discriminate; split; reflexivity. Qed.

Lemma enabled_other_merged m c c' b :
  c <> c' ->
  enabled c' (poke m (enableRegister c)
                   (merged (peek m (enableRegister c)) (enableMask c) b))
  = enabled c' m.
Proof.
  intros Hne. unfold enabled.
  destruct (decide (enableRegister c = enableRegister c')) as [E|E].
  - rewrite <- E.
    rewrite peek_poke_same
      by (apply merged_byte; [apply peek_octet | apply enable_mask_byte]).
    destruct (enable_bits_disjoint c c' Hne E) as [H0 H1].
    do 2 f_equal. destruct b; cbn [merged].
    + now rewrite Z.land_lor_distr_l, H0, Z.lor_0_r.
    + now rewrite <- Z.land_assoc, H1.
  - now rewrite peek_poke_other.
Qed.

Lemma enabled_other_code m c c' code :
  enabled c' (poke m (voltageRegister c) code) = enabled c' m.
Proof.
  unfold enabled. now rewrite peek_poke_other by apply voltage_enable_disjoint.
Qed.

Lemma setLdo_frame c c' v (s : AXP2101 (gmap Z Z)) :
  c <> c' -> enabled c' (regs (snd (setLdo c v s))) = enabled c' (regs s).
Proof.
  intros Hne.
  destruct (decide (v < 0 \/ channelMax c < v)) as [Hout|Hin].
  - now rewrite setLdo_out_of_range.
  - destruct (decide (v < 500)) as [Hlow|Hhigh].
    + rewrite setLdo_off by lia. unfold switched_off, after, regs.
      cbn [snd chip _device]. now apply enabled_other_merged.
    + rewrite setLdo_on by lia. unfold programmed, after, regs.
      cbn [snd chip _device].
      rewrite enabled_other_merged by assumption.
      apply enabled_other_code.
Qed.

End Frame.

(** C10. [_set_bit_in_register register bitmask value], run on any
    register state with any arguments, leaves every bit of the octet at
    [register] that is outside [bitmask] as it was; when it completes, what
    it put on the bus is one read of [register] followed by one write of the
    merged octet.  Hence [setLdo] on channel [c] never changes the enable
    bit of another channel [c']. *)
Theorem enable_update_frame
    (register bitmask : Z) (value : bool) (i : Z)
    (c c' : RegulatorChannel) (v : Z) (s : AXP2101 (gmap Z Z)) :
  Z.testbit bitmask i = false ->
  c <> c' ->
  Z.testbit (peek (regs (snd (_set_bit_in_register register bitmask value s))) register) i
  = Z.testbit (peek (regs s) register) i /\
  Z.land (peek (regs (snd (_set_bit_in_register register bitmask value s))) register)
         (Z.lnot bitmask)
  = Z.land (peek (regs s) register) (Z.lnot bitmask) /\
  (fst (_set_bit_in_register register bitmask value s) = Ok tt ->
   bus (snd (_set_bit_in_register register bitmask value s)) =
     bus s ++ [TxWriteThenRead [register] [peek (regs s) register];
               TxWrite [register; merged (peek (regs s) register) bitmask value]]) /\
  enabled c' (regs (snd (setLdo c v s))) = enabled c' (regs s).
Proof.
  intros Hbit Hne.
  assert (Hland :
    Z.land (peek (regs (snd (_set_bit_in_register register bitmask value s))) register)
           (Z.lnot bitmask)
    = Z.land (peek (regs s) register) (Z.lnot bitmask)).
  { destruct (set_bit_in_register_cases register bitmask value s)
      as [(Hr & Hv & ->) | (e & _ & ->)]; [|reflexivity].
    unfold after, regs. cbn [snd chip _device].
    rewrite peek_poke_same by exact Hv. apply merged_outside. }
  split; [|split; [exact Hland|split]].
  - destruct (Z.neg_nonneg_cases i) as [Hi|Hi].
    + now rewrite !Z.testbit_neg_r.
    + apply (f_equal (fun x => Z.testbit x i)) in Hland.
      rewrite !Z.land_spec, Z.lnot_spec, Hbit in Hland by assumption.
      cbn [negb] in Hland. now rewrite !andb_true_r in Hland.
  - destruct (set_bit_in_register_cases register bitmask value s)
      as [(Hr & Hv & ->) | (e & -> & _)]; [reflexivity | discriminate].
  - now apply setLdo_frame.
Qed.

Lemma enable_update_frame_witness :
  Z.testbit 0x10 0 = false /\ BLDO1 <> ALDO1 /\
  enabled ALDO1 (regs (snd (setLdo BLDO1 0 (attach (<[0x90 := 0x11]> ∅ : gmap Z Z)))))
  = enabled ALDO1 (regs (attach (<[0x90 := 0x11]> ∅ : gmap Z Z))).
Proof.
  assert (H1 : Z.testbit 0x10 0 = false) by reflexivity.
  assert (H2 : BLDO1 <> ALDO1) by discriminate.
  split; [exact H1 | split; [exact H2 |]].
  exact (proj2 (proj2 (proj2
           (enable_update_frame 0x90 0x10 false 0 BLDO1 ALDO1 0
              (attach (<[0x90 := 0x11]> ∅)) H1 H2)))).
Defined.

(** * Further properties of the driver *)

(** ** Channel numbers outside the table *)

(** X1. [__set_ldo] and [__get_ldo] accept channel numbers 0..5 only: for
    any other number they raise "Invalid LDO number", whatever the voltage,
    and leave the driver, the peripheral and the bus record as they were. *)
Theorem ldo_invalid_number_raises
    {D : Type} `{Peripheral D} (num voltage : Z) (s : AXP2101 D) :
  num < 0 \/ 5 < num ->
  __set_ldo num voltage s = (Raise (ValueError "Invalid LDO number"), s) /\
  __get_ldo num s = (Raise (ValueError "Invalid LDO number"), s).
Proof.
  intros Hn. unfold __set_ldo, __get_ldo.
  rewrite (not_in_range 0 5 num Hn). split; reflexivity.
Qed.

Lemma ldo_invalid_number_raises_witness :
  (6 < 0 \/ 5 < 6) /\
  __set_ldo 6 1800 (attach (∅ : gmap Z Z)) =
    (Raise (ValueError "Invalid LDO number"), attach (∅ : gmap Z Z)).
Proof.
  assert (H1 : 6 < 0 \/ 5 < 6) by (right; lia).
  split; [exact H1 |].
  exact (proj1 (ldo_invalid_number_raises 6 1800 (attach (∅ : gmap Z Z)) H1)).
Defined.

(** X2. [__set_dldo] and [__get_dldo] accept the numbers 1 and 2 only: for
    any other number, 0 included, they raise "Invald DLDO number", whatever
    the voltage, and leave the driver, the peripheral and the bus record as
    they were. *)
Theorem dldo_invalid_number_raises
    {D : Type} `{Peripheral D} (num voltage : Z) (s : AXP2101 D) :
  num < 1 \/ 2 < num ->
  __set_dldo num voltage s = (Raise (ValueError "Invald DLDO number"), s) /\
  __get_dldo num s = (Raise (ValueError "Invald DLDO number"), s).
Proof.
  intros Hn. unfold __set_dldo, __get_dldo.
  rewrite (not_in_range 1 2 num Hn). split; reflexivity.
Qed.

Lemma dldo_invalid_number_raises_witness :
  (0 < 1 \/ 2 < 0) /\
  __get_dldo 0 (attach (∅ : gmap Z Z)) =
    (Raise (ValueError "Invald DLDO number"), attach (∅ : gmap Z Z)).
Proof.
  assert (H1 : 0 < 1 \/ 2 < 0) by (left; lia).
  split; [exact H1 |].
  exact (proj2 (dldo_invalid_number_raises 0 0 (attach (∅ : gmap Z Z)) H1)).
Defined.

(** ** Voltages between two steps *)

(** X3. For every channel [c] and every voltage [v] in
    [[500, channelMax c]], exact or not, [getLdo c] after [setLdo c v]
    returns [v] rounded down to the channel's grid: the result is
    [v - (v - 500) mod step], it is at most [v] and more than [v - step],
    and the stored code is at most 30. *)
Theorem ldo_roundtrip_rounds_down
    (c : RegulatorChannel) (v : Z) (s : AXP2101 (gmap Z Z)) :
  500 <= v <= channelMax c ->
  fst (getLdo c (snd (setLdo c v s))) = Ok (v - (v - 500) mod channelStep c) /\
  v - channelStep c < v - (v - 500) mod channelStep c <= v /\
  0 <= peek (regs (snd (setLdo c v s))) (voltageRegister c) <= 30.
Proof.
  intros Hv.
  assert (Hstep : 0 < channelStep c) by (destruct c; cbn; lia).
  rewrite (setLdo_on c v s Hv). cbn [fst snd].
  rewrite getLdo_run, read_back_enabled by apply programmed_enabled.
  rewrite programmed_code by now apply channel_code_byte.
  pose proof (Z.div_mod (v - 500) (channelStep c) ltac:(lia)) as Hdm.
  pose proof (Z.mod_pos_bound (v - 500) (channelStep c) Hstep) as Hm.
  split; [f_equal; lia | split; [lia | split]].
  - apply Z.div_pos; lia.
  - apply Z.lt_succ_r. apply Z.div_lt_upper_bound; [assumption|].
    destruct c; cbn in *; lia.
Qed.

Lemma ldo_roundtrip_rounds_down_witness :
  500 <= 1234 <= channelMax DLDO2 /\
  fst (getLdo DLDO2 (snd (setLdo DLDO2 1234 (attach (∅ : gmap Z Z))))) = Ok 1200.
Proof.
  assert (H1 : 500 <= 1234 <= channelMax DLDO2) by (cbn; lia).
  split; [exact H1 |].
  exact (proj1 (ldo_roundtrip_rounds_down DLDO2 1234 (attach (∅ : gmap Z Z)) H1)).
Defined.

(** ** Channels do not disturb one another *)

Lemma voltage_register_injective c c' :
  c <> c' -> voltageRegister c <> voltageRegister c'.
Proof. destruct c, c'; intros Hne; try congruence; discriminate. Qed.

Lemma setLdo_other_code c c' v (s : AXP2101 (gmap Z Z)) :
  c <> c' ->
  peek (regs (snd (setLdo c v s))) (voltageRegister c')
  = peek (regs s) (voltageRegister c').
Proof.
  intros Hne.
  destruct (decide (v < 0 \/ channelMax c < v)) as [Hout|Hin].
  - now rewrite setLdo_out_of_range.
  - destruct (decide (v < 500)) as [Hlow|Hhigh].
    + rewrite setLdo_off by lia. unfold switched_off, after, regs.
      cbn [snd chip _device].
      apply peek_poke_other, not_eq_sym, voltage_enable_disjoint.
    + rewrite setLdo_on by lia. unfold programmed, after, regs.
      cbn [snd chip _device].
      rewrite peek_poke_other by apply not_eq_sym, voltage_enable_disjoint.
      now apply peek_poke_other, voltage_register_injective.
Qed.

Lemma read_back_fst {D} `{Peripheral D} (s : AXP2101 D) c :
  fst (read_back s (voltageRegister c) (channelStep c) (enableRegister c) (enableMask c))
  = if enabled c (regs s)
    then Ok (peek (regs s) (voltageRegister c) * channelStep c + 500)
    else Ok 0.
Proof. unfold read_back, enabled. now destruct (negb _). Qed.

(** X4. Programming, switching off or failing to program channel [c]
    changes nothing about any other channel [c']: [getLdo c'] returns the
    same voltage after [setLdo c v] as before it, for every [v]. *)
Theorem ldo_channels_independent
    (c c' : RegulatorChannel) (v : Z) (s : AXP2101 (gmap Z Z)) :
  c <> c' ->
  fst (getLdo c' (snd (setLdo c v s))) = fst (getLdo c' s).
Proof.
  intros Hne. rewrite !getLdo_run, !read_back_fst.
  now rewrite setLdo_frame, setLdo_other_code.
Qed.

Lemma ldo_channels_independent_witness :
  DLDO1 <> ALDO2 /\
  fst (getLdo ALDO2 (snd (setLdo DLDO1 3300
         (attach (<[0x90 := 0x02]> (<[0x93 := 7]> ∅) : gmap Z Z))))) = Ok 1200.
Proof.
  assert (H1 : DLDO1 <> ALDO2) by discriminate.
  split; [exact H1 |].
  exact (ldo_channels_independent DLDO1 ALDO2 3300
           (attach (<[0x90 := 0x02]> (<[0x93 := 7]> ∅) : gmap Z Z)) H1).
Defined.

(** ** The getters only read *)

Section Getters.
Context {D : Type} `{Peripheral D}.

Lemma read_only_refl (s : AXP2101 D) : read_only s s.
Proof. split; [reflexivity|]. exists []. split; [now rewrite app_nil_r | reflexivity]. Qed.

Lemma read_only_trans (s1 s2 s3 : AXP2101 D) :
  read_only s1 s2 -> read_only s2 s3 -> read_only s1 s3.
Proof.
  intros [Hr1 (l1 & Hb1 & Hl1)] [Hr2 (l2 & Hb2 & Hl2)]. split.
  - congruence.
  - exists (l1 ++ l2). split.
    + now rewrite Hb2, Hb1, app_assoc.
    + rewrite forallb_app, Hl1, Hl2. reflexivity.
Qed.

Lemma reads_only_ret {A} (a : A) : reads_only (D := D) (ret a).
Proof. intros s. apply read_only_refl. Qed.

Lemma reads_only_raise {A} e : reads_only (D := D) (A := A) (raise e).
Proof. intros s. apply read_only_refl. Qed.

Lemma reads_only_bind {A B} (m : M D A) (k : A -> M D B) :
  reads_only m -> (forall a, reads_only (k a)) -> reads_only (bind m k).
Proof.
  intros Hm Hk s. unfold bind. specialize (Hm s).
  destruct (m s) as [[a|e] s1]; cbn [snd] in *.
  - eapply read_only_trans; [exact Hm | apply Hk].
  - exact Hm.
Qed.

Lemma reads_only_read_register8 r : reads_only (_read_register8 r).
Proof.
  intros s. destruct (decide (0 <= r < 256)) as [Hr|Hr].
  - rewrite read_register8_run by assumption. split; [reflexivity|].
    eexists. split; reflexivity.
  - unfold _read_register8, bind, set_buffer0. rewrite (not_in_byte r Hr).
    apply read_only_refl.
Qed.

Lemma reads_only_read_register14 r : reads_only (_read_register14 r).
Proof.
  intros s. destruct (decide (0 <= r < 256)) as [Hr|Hr].
  - rewrite read_register14_run by assumption. split; [reflexivity|].
    eexists. split; reflexivity.
  - unfold _read_register14, bind, set_buffer0. rewrite (not_in_byte r Hr).
    apply read_only_refl.
Qed.

Ltac reads :=
  repeat first
    [ apply reads_only_read_register8
    | apply reads_only_read_register14
    | apply reads_only_ret
    | apply reads_only_raise
    | apply reads_only_bind; [|intros ?]
    | match goal with |- reads_only (if ?b then _ else _) => destruct b end
    | match goal with |- reads_only (let '(_, _) := ?p in _) => destruct p end ].

Lemma reads_only_get_ldo num : reads_only (__get_ldo num).
Proof. unfold __get_ldo. cbv zeta. reads. Qed.

Lemma reads_only_get_dldo num : reads_only (__get_dldo num).
Proof.
  unfold __get_dldo.
  destruct ((1 <=? num) && (num <=? 2)); [|reads].
  destruct (num =? 1); cbv beta iota zeta; reads.
Qed.

End Getters.

(** X5. None of the getters writes: from every driver state, [getLdo c],
    [is_battery_connected], [battery_level], [battery_voltage],
    [battery_charging_enabled] and [battery_status] leave the peripheral
    exactly as it was, and what they add to the bus record are read
    transactions only. *)
Theorem getters_only_read
    {D : Type} `{Peripheral D} (c : RegulatorChannel) (s : AXP2101 D) :
  read_only s (snd (getLdo c s)) /\
  read_only s (snd (is_battery_connected s)) /\
  read_only s (snd (battery_level s)) /\
  read_only s (snd (battery_voltage s)) /\
  read_only s (snd (battery_charging_enabled s)) /\
  read_only s (snd (battery_status s)).
Proof.
  assert (Hc : reads_only (is_battery_connected (D := D))).
  { unfold is_battery_connected.
    apply reads_only_bind; [apply reads_only_read_register8 | intros ?; apply reads_only_ret]. }
  refine (conj _ (conj _ (conj _ (conj _ (conj _ _))))).
  - destruct c;
      first [ apply (reads_only_get_ldo _ s) | apply (reads_only_get_dldo _ s) ].
  - apply (Hc s).
  - apply (reads_only_read_register8 _ s).
  - apply (reads_only_read_register14 _ s).
  - apply (reads_only_bind (_read_register8 0x18)
             (fun r => ret (negb (Z.land r 0x02 =? 0)))
             (reads_only_read_register8 _) (fun r => reads_only_ret _) s).
  - unfold battery_status.
    apply (reads_only_bind is_battery_connected); [exact Hc|].
    intros b. destruct (negb b); [apply reads_only_ret|].
    apply reads_only_bind; [apply reads_only_read_register8|].
    intros r. cbv zeta.
    repeat match goal with |- reads_only (if ?b then _ else _) => destruct b end;
      apply reads_only_ret.
Qed.

(** ** Register write, register read *)

Lemma lookup_poke_other (m : gmap Z Z) a b v : a <> b -> poke m a v !! b = m !! b.
Proof. intros Hab. cbn. now apply lookup_insert_ne. Qed.

(** X6. On a plain register file, for a register number and an octet in
    0..255, [_write_register8] returns normally, [_read_register8] of the
    same register then returns the octet written, and reading any other
    register returns what it returned before the write. *)
Theorem register_write_read_roundtrip
    (register value other : Z) (s : AXP2101 (gmap Z Z)) :
  0 <= register < 256 -> 0 <= value < 256 ->
  0 <= other < 256 -> other <> register ->
  fst (_write_register8 register value s) = Ok tt /\
  fst (_read_register8 register (snd (_write_register8 register value s))) = Ok value /\
  fst (_read_register8 other (snd (_write_register8 register value s)))
  = fst (_read_register8 other s).
Proof.
  intros Hr Hv Ho Hne.
  rewrite write_register8_run by assumption.
  rewrite !read_register8_run by assumption.
  unfold after, regs. cbn [fst snd chip _device].
  rewrite peek_poke_same by assumption.
  rewrite peek_poke_other by congruence.
  repeat split.
Qed.

Lemma register_write_read_roundtrip_witness :
  0 <= 0x92 < 256 /\ 0 <= 13 < 256 /\ 0 <= 0x93 < 256 /\ 0x93 <> 0x92 /\
  fst (_read_register8 0x92 (snd (_write_register8 0x92 13 (attach (∅ : gmap Z Z))))) = Ok 13.
Proof.
  assert (H1 : 0 <= 0x92 < 256) by lia.
  assert (H2 : 0 <= 13 < 256) by lia.
  assert (H3 : 0 <= 0x93 < 256) by lia.
  assert (H4 : 0x93 <> 0x92) by lia.
  repeat (split; [assumption |]).
  exact (proj1 (proj2
           (register_write_read_roundtrip 0x92 13 0x93 (attach (∅ : gmap Z Z)) H1 H2 H3 H4))).
Defined.

(** X7. [_write_register8] with a register number or a value outside
    0..255 raises [ValueError] when it fills the transfer buffer: nothing
    is sent, and the peripheral and the bus record are as they were. *)
Theorem register_write_rejects_non_octets
    {D : Type} `{Peripheral D} (register value : Z) (s : AXP2101 D) :
  ~ (0 <= register < 256) \/ ~ (0 <= value < 256) ->
  fst (_write_register8 register value s) =
    Raise (ValueError "byte must be in range(0, 256)") /\
  regs (snd (_write_register8 register value s)) = regs s /\
  bus (snd (_write_register8 register value s)) = bus s.
Proof.
  intros Hbad. unfold _write_register8, bind, set_buffer0, set_buffer1.
  destruct (decide (0 <= register < 256)) as [Hr|Hr].
  - destruct Hbad as [Hbad|Hv]; [contradiction|].
    rewrite (in_byte register Hr). cbn [_buffer _device byte0 byte1].
    rewrite (not_in_byte value Hv). repeat split.
  - rewrite (not_in_byte register Hr). repeat split.
Qed.

Lemma register_write_rejects_non_octets_witness :
  (~ (0 <= 0x92 < 256) \/ ~ (0 <= 300 < 256)) /\
  fst (_write_register8 0x92 300 (attach (∅ : gmap Z Z))) =
    Raise (ValueError "byte must be in range(0, 256)").
Proof.
  assert (H1 : ~ (0 <= 0x92 < 256) \/ ~ (0 <= 300 < 256)) by (right; lia).
  split; [exact H1 |].
  exact (proj1 (register_write_rejects_non_octets 0x92 300 (attach (∅ : gmap Z Z)) H1)).
Defined.

(** ** Battery charging switch *)

(** X8. [battery_charging_enabled]: the setter takes booleans only, an
    integer (0 and 1 included) or [None] raises "Enabled must be a boolean"
    with nothing sent.  With a boolean [b] it returns normally, the getter
    then returns [b], the other seven bits of register 0x18 are as before,
    and every other register is untouched. *)
Theorem charging_switch_roundtrip
    (b : bool) (z a : Z) (s : AXP2101 (gmap Z Z)) :
  a <> 0x18 ->
  fst (battery_charging_enabled_setter (PyBool b) s) = Ok tt /\
  fst (battery_charging_enabled
         (snd (battery_charging_enabled_setter (PyBool b) s))) = Ok b /\
  Z.land (peek (regs (snd (battery_charging_enabled_setter (PyBool b) s))) 0x18)
         (Z.lnot 0x02)
  = Z.land (peek (regs s) 0x18) (Z.lnot 0x02) /\
  regs (snd (battery_charging_enabled_setter (PyBool b) s)) !! a = regs s !! a /\
  battery_charging_enabled_setter (PyInt z) s =
    (Raise (ValueError "Enabled must be a boolean"), s) /\
  battery_charging_enabled_setter PyNone s =
    (Raise (ValueError "Enabled must be a boolean"), s).
Proof.
  intros Ha. cbn [battery_charging_enabled_setter].
  assert (Hm : 0 <= merged (peek (regs s) 0x18) 0x02 b < 256)
    by (apply merged_byte; [apply peek_octet | lia]).
  rewrite set_bit_in_register_run by (assumption || lia).
  unfold battery_charging_enabled, bind.
  rewrite read_register8_run by lia.
  unfold after, regs, ret. cbn [fst snd chip _device].
  rewrite peek_poke_same by exact Hm.
  split; [reflexivity|]. split; [|split; [apply merged_outside|split]].
  - do 2 f_equal. destruct b; cbn [merged].
    + now rewrite lor_mask_set.
    + now rewrite land_lnot_mask_clear.
  - apply lookup_poke_other. congruence.
  - split; reflexivity.
Qed.

Lemma charging_switch_roundtrip_witness :
  0x90 <> 0x18 /\
  fst (battery_charging_enabled
         (snd (battery_charging_enabled_setter (PyBool false)
                 (attach (<[0x18 := 0xFF]> ∅ : gmap Z Z))))) = Ok false.
Proof.
  assert (H1 : 0x90 <> 0x18) by lia.
  split; [exact H1 |].
  exact (proj1 (proj2
           (charging_switch_roundtrip false 1 0x90
              (attach (<[0x18 := 0xFF]> ∅ : gmap Z Z)) H1))).
Defined.

(** ** Setting and clearing bits *)

Lemma merged_idempotent old m b : merged (merged old m b) m b = merged old m b.
Proof.
  destruct b; cbn [merged].
  - now rewrite <- Z.lor_assoc, Z.lor_diag.
  - now rewrite <- Z.land_assoc, Z.land_diag.
Qed.

Lemma merged_mask old m b : Z.land (merged old m b) m = if b then m else 0.
Proof. destruct b; cbn [merged]; [apply lor_mask_set | apply land_lnot_mask_clear]. Qed.

(** X9. On a plain register file, for a register number and a bitmask in
    0..255, [_set_bit_in_register] returns normally; afterwards the masked
    bits of the register read as all set ([value] true) or all clear
    ([value] false); and doing the same call a second time leaves the
    register file as the first call left it. *)
Theorem set_bit_takes_effect_once
    (register bitmask : Z) (value : bool) (s : AXP2101 (gmap Z Z)) :
  0 <= register < 256 -> 0 <= bitmask < 256 ->
  fst (_set_bit_in_register register bitmask value s) = Ok tt /\
  Z.land (peek (regs (snd (_set_bit_in_register register bitmask value s))) register)
         bitmask
  = (if value then bitmask else 0) /\
  regs (snd (_set_bit_in_register register bitmask value
               (snd (_set_bit_in_register register bitmask value s))))
  = regs (snd (_set_bit_in_register register bitmask value s)).
Proof.
  intros Hr Hm.
  assert (Hv : 0 <= merged (peek (regs s) register) bitmask value < 256)
    by (apply merged_byte; [apply peek_octet | assumption]).
  rewrite (set_bit_in_register_run register bitmask value s) by assumption.
  cbn [fst snd].
  assert (Hp : peek (regs (after (poke (regs s) register
                                    (merged (peek (regs s) register) bitmask value))
                                 (bus s ++ [TxWriteThenRead [register] [peek (regs s) register];
                                            TxWrite [register;
                                                     merged (peek (regs s) register)
                                                            bitmask value]])
                                 register (merged (peek (regs s) register) bitmask value)))
                  register
               = merged (peek (regs s) register) bitmask value).
  { unfold after, regs. cbn [chip _device]. now apply peek_poke_same. }
  split; [reflexivity|]. split.
  - rewrite Hp. apply merged_mask.
  - rewrite set_bit_in_register_run; try assumption.
    + rewrite Hp, merged_idempotent. unfold after, regs.
      cbn [snd chip _device poke RegisterMap]. apply insert_insert_eq.
    + rewrite Hp, merged_idempotent. exact Hv.
Qed.

Lemma set_bit_takes_effect_once_witness :
  0 <= 0x90 < 256 /\ 0 <= 0x0F < 256 /\
  Z.land (peek (regs (snd (_set_bit_in_register 0x90 0x0F true
                             (attach (<[0x90 := 0xA0]> ∅ : gmap Z Z))))) 0x90) 0x0F
  = 0x0F.
Proof.
  assert (H1 : 0 <= 0x90 < 256) by lia.
  assert (H2 : 0 <= 0x0F < 256) by lia.
  split; [exact H1 | split; [exact H2 |]].
  exact (proj1 (proj2
           (set_bit_takes_effect_once 0x90 0x0F true
              (attach (<[0x90 := 0xA0]> ∅ : gmap Z Z)) H1 H2))).
Defined.

(** A bitmask with a bit outside the octet, or a negative one, cannot be
    merged into an octet. *)
Lemma lor_outside_octet old m :
  0 <= old < 256 -> ~ (0 <= m < 256) -> ~ (0 <= Z.lor old m < 256).
Proof.
  intros Ho Hm Hl. apply Hm.
  assert (Hm0 : 0 <= m) by (apply (proj1 (Z.lor_nonneg old m)); lia).
  split; [exact Hm0|].
  apply byte_iff_land. apply byte_iff_land in Hl.
  apply Z.bits_inj'. intros i Hi.
  apply (f_equal (fun x => Z.testbit x i)) in Hl.
  rewrite Z.land_spec, Z.lor_spec in Hl. rewrite Z.land_spec.
  destruct (Z.testbit m i), (Z.testbit 255 i), (Z.testbit old i);
    cbn in *; congruence.
Qed.

(** X10. The bitmask of [_set_bit_in_register] is not checked up front.
    Clearing works with any bitmask, of any size or sign.  Setting with a
    bitmask outside 0..255 raises [ValueError] after the register was read:
    the bus record shows that read and no write, and the peripheral is
    as it was. *)
Theorem set_bit_mask_bounds
    {D : Type} `{Peripheral D} (register bitmask : Z) (s : AXP2101 D) :
  0 <= register < 256 -> ~ (0 <= bitmask < 256) ->
  fst (_set_bit_in_register register bitmask false s) = Ok tt /\
  fst (_set_bit_in_register register bitmask true s) =
    Raise (ValueError "byte must be in range(0, 256)") /\
  bus (snd (_set_bit_in_register register bitmask true s)) =
    bus s ++ [TxWriteThenRead [register] [peek (regs s) register]] /\
  regs (snd (_set_bit_in_register register bitmask true s)) = regs s.
Proof.
  intros Hr Hm. split.
  - rewrite set_bit_in_register_run; [reflexivity | assumption |].
    apply land_byte, peek_octet.
  - pose proof (lor_outside_octet (peek (regs s) register) bitmask
                  (peek_octet _ _) Hm) as Hbad.
    unfold _set_bit_in_register, bind, set_buffer0.
    rewrite (in_byte register Hr). unfold regs, bus in *.
    cbn -[Z.lor Z.land Z.lnot Z.leb Z.ltb].
    unfold set_buffer1. cbn -[Z.lor Z.land Z.lnot Z.leb Z.ltb].
    rewrite (not_in_byte _ Hbad). repeat split.
Qed.

Lemma set_bit_mask_bounds_witness :
  0 <= 0x90 < 256 /\ ~ (0 <= 0x100 < 256) /\
  bus (snd (_set_bit_in_register 0x90 0x100 true (attach (∅ : gmap Z Z)))) =
    [TxWriteThenRead [0x90] [0]].
Proof.
  assert (H1 : 0 <= 0x90 < 256) by lia.
  assert (H2 : ~ (0 <= 0x100 < 256)) by lia.
  split; [exact H1 | split; [exact H2 |]].
  exact (proj1 (proj2 (proj2
           (set_bit_mask_bounds 0x90 0x100 (attach (∅ : gmap Z Z)) H1 H2)))).
Defined.

(** ** Battery voltage *)

Lemma compose14_sum b0 b1 :
  0 <= b1 < 256 ->
  Z.lor (Z.shiftl (Z.land b0 0x3F) 8) b1 = (b0 mod 64) * 256 + b1.
Proof.
  intros Hb1.
  change 0x3F with (Z.ones 6). rewrite Z.land_ones by lia. change (2 ^ 6) with 64.
  assert (Hl : Z.land (Z.shiftl (b0 mod 64) 8) b1 = 0).
  { apply Z.bits_inj'. intros i Hi.
    rewrite Z.land_spec, Z.bits_0.
    destruct (Z.lt_ge_cases i 8) as [Hlt|Hge].
    - now rewrite Z.shiftl_spec_low.
    - apply byte_iff_land in Hb1. rewrite <- Hb1, Z.land_spec.
      change 255 with (Z.ones 8). rewrite Z.ones_spec_high by lia.
      now rewrite andb_false_r, andb_false_r. }
  pose proof (Z.add_lor_land (Z.shiftl (b0 mod 64) 8) b1) as Hs.
  rewrite Hl, Z.add_0_r in Hs. rewrite Hs, Z.shiftl_mul_pow2 by lia.
  reflexivity.
Qed.

(** X11. [battery_voltage] never raises and returns, with [h] and [l] the
    octets of registers 0x34 and 0x35, the number [(h mod 64) * 256 + l]:
    the two top bits of the high octet do not count, and the result lies
    in 0..16383. *)
Theorem battery_voltage_value {D : Type} `{Peripheral D} (s : AXP2101 D) :
  fst (battery_voltage s) =
    Ok ((peek (regs s) 0x34 mod 64) * 256 + peek (regs s) 0x35) /\
  0 <= (peek (regs s) 0x34 mod 64) * 256 + peek (regs s) 0x35 <= 16383.
Proof.
  unfold battery_voltage. rewrite read_register14_run by lia. cbn [fst].
  change (0x34 + 1) with 0x35.
  rewrite compose14_sum by apply peek_octet. split; [reflexivity|].
  pose proof (peek_octet (regs s) 0x35).
  pose proof (Z.mod_pos_bound (peek (regs s) 0x34) 64 ltac:(lia)). lia.
Qed.

(** ** Construction and power-off *)

Lemma peek_insert_same (m : gmap Z Z) a v :
  0 <= v < 256 -> peek (<[a := v]> m) a = v.
Proof. exact (peek_poke_same m a v). Qed.

Lemma peek_insert_other (m : gmap Z Z) a b v :
  a <> b -> peek (<[a := v]> m) b = peek m b.
Proof. exact (peek_poke_other m a b v). Qed.





(** X13. [power_off] never raises: it reads register 0x10 and writes it
    back with bit 0x01 set and its other seven bits as read, and it touches
    no other register. *)
Theorem power_off_sets_one_bit (a : Z) (s : AXP2101 (gmap Z Z)) :
  a <> 0x10 ->
  fst (power_off s) = Ok tt /\
  bus (snd (power_off s)) =
    bus s ++ [TxWriteThenRead [0x10] [peek (regs s) 0x10];
              TxWrite [0x10; Z.lor (peek (regs s) 0x10) 0x01]] /\
  Z.land (peek (regs (snd (power_off s))) 0x10) 0x01 = 0x01 /\
  Z.land (peek (regs (snd (power_off s))) 0x10) (Z.lnot 0x01)
  = Z.land (peek (regs s) 0x10) (Z.lnot 0x01) /\
  regs (snd (power_off s)) !! a = regs s !! a.
Proof.
  intros Ha. unfold power_off.
  assert (Hb : 0 <= merged (peek (regs s) 0x10) 0x01 true < 256)
    by (apply merged_byte; [apply peek_octet | lia]).
  rewrite set_bit_in_register_run by (assumption || lia).
  unfold after, regs, bus. cbn [fst snd chip wire _device].
  rewrite peek_poke_same by exact Hb. cbn [merged].
  split; [reflexivity|]. split; [reflexivity|].
  split; [apply lor_mask_set|]. split; [apply lor_outside|].
  apply lookup_poke_other. congruence.
Qed.

Lemma power_off_sets_one_bit_witness :
  0x90 <> 0x10 /\
  Z.land (peek (regs (snd (power_off (attach (<[0x10 := 0x40]> ∅ : gmap Z Z))))) 0x10) 0x01
  = 0x01.
Proof.
  assert (H1 : 0x90 <> 0x10) by lia.
  split; [exact H1 |].
  exact (proj1 (proj2 (proj2
           (power_off_sets_one_bit 0x90 (attach (<[0x10 := 0x40]> ∅ : gmap Z Z)) H1)))).
Defined.

(** ** The transfer buffer carries nothing over *)

Section BufferBlind.
Context {D : Type} `{Peripheral D}.

Lemma same_outcome_refl {A} (r : result A * AXP2101 D) : same_outcome r r.
Proof. split; reflexivity. Qed.

Lemma blind_ret {A} (a : A) : buffer_blind (D := D) (ret a).
Proof. intros s s' E. split; [reflexivity | exact E]. Qed.

Lemma blind_raise {A} e : buffer_blind (D := D) (A := A) (raise e).
Proof. intros s s' E. split; [reflexivity | exact E]. Qed.

Lemma blind_bind {A B} (m : M D A) (k : A -> M D B) :
  buffer_blind m -> (forall a, buffer_blind (k a)) -> buffer_blind (bind m k).
Proof.
  intros Hm Hk s s' E. unfold bind.
  destruct (Hm s s' E) as [Hf Hd].
  destruct (m s) as [[a|e] s1], (m s') as [[a'|e'] s1'];
    cbn [fst snd] in *; try discriminate.
  - injection Hf as <-. now apply Hk.
  - injection Hf as <-. split; [reflexivity | exact Hd].
Qed.

Ltac same_device :=
  match goal with
  | |- buffer_blind _ =>
      let b := fresh "b" in let b' := fresh "b'" in
      let d := fresh "d" in let d' := fresh "d'" in
      let E := fresh "E" in
      intros [d b] [d' b'] E; cbn [_device] in E; subst d'
  end.

Ltac split_checks :=
  repeat match goal with
         | |- context [(0 <=? ?x) && (?x <? 256)] =>
             destruct ((0 <=? x) && (x <? 256));
             cbn -[Z.lor Z.land Z.lnot Z.shiftl Z.leb Z.ltb]
         end.

Lemma blind_read_register8 r : buffer_blind (_read_register8 r).
Proof.
  same_device. unfold _read_register8, bind, set_buffer0.
  cbn -[Z.leb Z.ltb]. split_checks; apply same_outcome_refl || (split; reflexivity).
Qed.

Lemma blind_read_register14 r : buffer_blind (_read_register14 r).
Proof.
  same_device. unfold _read_register14, bind, set_buffer0.
  cbn -[Z.lor Z.land Z.shiftl Z.leb Z.ltb].
  split_checks; apply same_outcome_refl || (split; reflexivity).
Qed.

Lemma blind_write_register8 r v : buffer_blind (_write_register8 r v).
Proof.
  same_device. unfold _write_register8, bind, set_buffer0, set_buffer1.
  cbn -[Z.leb Z.ltb]. split_checks; apply same_outcome_refl || (split; reflexivity).
Qed.

Lemma blind_set_bit_in_register r m b : buffer_blind (_set_bit_in_register r m b).
Proof.
  same_device. unfold _set_bit_in_register, bind, set_buffer0.
  cbn -[Z.lor Z.land Z.lnot Z.leb Z.ltb].
  destruct ((0 <=? r) && (r <? 256)); [|split; reflexivity].
  cbn -[Z.lor Z.land Z.lnot Z.leb Z.ltb].
  destruct b; unfold set_buffer1; cbn -[Z.lor Z.land Z.lnot Z.leb Z.ltb];
    split_checks; split; reflexivity.
Qed.

Ltac blind :=
  repeat first
    [ apply blind_read_register8
    | apply blind_read_register14
    | apply blind_write_register8
    | apply blind_set_bit_in_register
    | apply blind_ret
    | apply blind_raise
    | apply blind_bind; [|intros ?]
    | match goal with |- buffer_blind (if ?b then _ else _) => destruct b end ].

Lemma blind_setLdo c v : buffer_blind (setLdo c v).
Proof.
  destruct c; cbn [setLdo];
    unfold _aldo1_voltage_setpoint_setter, _aldo2_voltage_setpoint_setter,
           _aldo3_voltage_setpoint_setter, _aldo4_voltage_setpoint_setter,
           _bldo1_voltage_setpoint_setter, _bldo2_voltage_setpoint_setter,
           _dldo1_voltage_setpoint_setter, _dldo2_voltage_setpoint_setter,
           __set_ldo, __set_dldo;
    change ((1 <=? 1) && (1 <=? 2)) with true;
    change ((1 <=? 2) && (2 <=? 2)) with true;
    change (1 =? 1) with true; change (2 =? 1) with false;
    cbv beta iota zeta; blind.
Qed.

Lemma blind_getLdo c : buffer_blind (getLdo c).
Proof.
  destruct c; cbn [getLdo];
    unfold _aldo1_voltage_setpoint, _aldo2_voltage_setpoint,
           _aldo3_voltage_setpoint, _aldo4_voltage_setpoint,
           _bldo1_voltage_setpoint, _bldo2_voltage_setpoint,
           _dldo1_voltage_setpoint, _dldo2_voltage_setpoint,
           __get_ldo, __get_dldo;
    change ((1 <=? 1) && (1 <=? 2)) with true;
    change ((1 <=? 2) && (2 <=? 2)) with true;
    change (1 =? 1) with true; change (2 =? 1) with false;
    cbv beta iota zeta; blind.
Qed.

Lemma blind_is_battery_connected : buffer_blind (is_battery_connected (D := D)).
Proof. unfold is_battery_connected. blind. Qed.

Lemma blind_battery_status : buffer_blind (battery_status (D := D)).
Proof.
  unfold battery_status. apply blind_bind; [apply blind_is_battery_connected|].
  intros b. cbv zeta. blind.
Qed.

Lemma blind_power_key_was_pressed : buffer_blind (power_key_was_pressed (D := D)).
Proof. unfold power_key_was_pressed. cbv zeta. blind. Qed.

Lemma blind_charging_setter x : buffer_blind (battery_charging_enabled_setter (D := D) x).
Proof. destruct x; cbn [battery_charging_enabled_setter]; blind. Qed.

Lemma blind_charging_getter : buffer_blind (battery_charging_enabled (D := D)).
Proof. unfold battery_charging_enabled. blind. Qed.

End BufferBlind.

(** X14. No method looks at what an earlier call left in the shared
    2-byte transfer buffer: run on two driver states with the same device,
    each method gives the same result or the same exception and leaves the
    same peripheral and the same bus record. *)
Theorem methods_ignore_stale_buffer
    {D : Type} `{Peripheral D}
    (c : RegulatorChannel) (v : Z) (x : pyobj) (s s' : AXP2101 D) :
  _device s = _device s' ->
  same_outcome (setLdo c v s) (setLdo c v s') /\
  same_outcome (getLdo c s) (getLdo c s') /\
  same_outcome (power_off s) (power_off s') /\
  same_outcome (power_key_was_pressed s) (power_key_was_pressed s') /\
  same_outcome (is_battery_connected s) (is_battery_connected s') /\
  same_outcome (battery_level s) (battery_level s') /\
  same_outcome (battery_voltage s) (battery_voltage s') /\
  same_outcome (battery_charging_enabled s) (battery_charging_enabled s') /\
  same_outcome (battery_charging_enabled_setter x s)
               (battery_charging_enabled_setter x s') /\
  same_outcome (battery_status s) (battery_status s').
Proof.
  intros E.
  refine (conj _ (conj _ (conj _ (conj _ (conj _
           (conj _ (conj _ (conj _ (conj _ _))))))))).
  - now apply blind_setLdo.
  - now apply blind_getLdo.
  - now apply (blind_set_bit_in_register 0x10 0x01 true).
  - now apply blind_power_key_was_pressed.
  - now apply blind_is_battery_connected.
  - now apply (blind_read_register8 0xA4).
  - now apply (blind_read_register14 0x34).
  - now apply blind_charging_getter.
  - now apply blind_charging_setter.
  - now apply blind_battery_status.
Qed.

Lemma methods_ignore_stale_buffer_witness :
  _device (attach (∅ : gmap Z Z)) =
  _device {| _device := {| chip := (∅ : gmap Z Z); wire := [] |};
             _buffer := {| byte0 := 0x49; byte1 := 0x0C |} |} /\
  same_outcome
    (getLdo ALDO1 (attach (∅ : gmap Z Z)))
    (getLdo ALDO1 {| _device := {| chip := (∅ : gmap Z Z); wire := [] |};
                     _buffer := {| byte0 := 0x49; byte1 := 0x0C |} |}).
Proof.
  assert (H1 : _device (attach (∅ : gmap Z Z)) =
               _device {| _device := {| chip := (∅ : gmap Z Z); wire := [] |};
                          _buffer := {| byte0 := 0x49; byte1 := 0x0C |} |})
    by reflexivity.
  split; [exact H1 |].
  exact (proj1 (proj2
           (methods_ignore_stale_buffer ALDO1 0 PyNone _ _ H1))).
Defined.

(** ** Repeating and reordering regulator settings *)

Section Compose.
Implicit Types (m : gmap Z Z) (c : RegulatorChannel).

Lemma setLdo_regs c v (s : AXP2101 (gmap Z Z)) :
  regs (snd (setLdo c v s)) = switch_enable c v (write_code c v (regs s)).
Proof.
  unfold switch_enable, write_code, accepted.
  destruct (decide (v < 0 \/ channelMax c < v)) as [Hout|Hin].
  - rewrite setLdo_out_of_range by assumption.
    now rewrite (not_in_range 0 (channelMax c) v Hout).
  - rewrite (in_range 0 (channelMax c) v) by lia. cbn [andb].
    destruct (Z.leb_spec 500 v) as [Hon|Hoff].
    + rewrite setLdo_on by lia. unfold programmed, after, regs.
      reflexivity.
    + rewrite setLdo_off by lia. reflexivity.
Qed.

Lemma write_code_commute c c' v v' m :
  c <> c' ->
  write_code c v (write_code c' v' m) = write_code c' v' (write_code c v m).
Proof.
  intros Hne. unfold write_code.
  destruct (accepted c v && (500 <=? v)), (accepted c' v' && (500 <=? v'));
    try reflexivity.
  apply insert_insert_ne. now apply voltage_register_injective.
Qed.

Lemma write_code_switch_commute c c' v v' m :
  write_code c v (switch_enable c' v' m) = switch_enable c' v' (write_code c v m).
Proof.
  unfold write_code, switch_enable.
  destruct (accepted c v && (500 <=? v)), (accepted c' v'); try reflexivity.
  rewrite peek_insert_other by apply voltage_enable_disjoint.
  apply insert_insert_ne, voltage_enable_disjoint.
Qed.

Lemma merged_commute old k1 k2 b1 b2 :
  Z.land k1 k2 = 0 ->
  merged (merged old k1 b1) k2 b2 = merged (merged old k2 b2) k1 b1.
Proof.
  intros Hd. apply Z.bits_inj'. intros i Hi.
  apply (f_equal (fun x => Z.testbit x i)) in Hd.
  rewrite Z.land_spec, Z.bits_0 in Hd.
  destruct b1, b2; cbn [merged];
    rewrite ?Z.lor_spec, ?Z.land_spec, ?Z.lnot_spec, ?Z.lor_spec, ?Z.land_spec
      by assumption;
    destruct (Z.testbit old i), (Z.testbit k1 i), (Z.testbit k2 i);
    cbn in *; congruence.
Qed.

Lemma switch_enable_commute c c' v v' m :
  c <> c' ->
  switch_enable c v (switch_enable c' v' m) = switch_enable c' v' (switch_enable c v m).
Proof.
  intros Hne. unfold switch_enable.
  destruct (accepted c v), (accepted c' v'); try reflexivity.
  destruct (decide (enableRegister c = enableRegister c')) as [E|E].
  - rewrite <- E.
    rewrite !peek_insert_same
      by (apply merged_byte; [apply peek_octet | apply enable_mask_byte]).
    rewrite !insert_insert_eq. f_equal.
    symmetry. apply merged_commute.
    now destruct (enable_bits_disjoint c c' Hne E).
  - rewrite !peek_insert_other by congruence.
    apply insert_insert_ne. congruence.
Qed.

Lemma write_code_idempotent c v m :
  write_code c v (write_code c v m) = write_code c v m.
Proof.
  unfold write_code. destruct (accepted c v && (500 <=? v)); [|reflexivity].
  apply insert_insert_eq.
Qed.

Lemma switch_enable_idempotent c v m :
  switch_enable c v (switch_enable c v m) = switch_enable c v m.
Proof.
  unfold switch_enable. destruct (accepted c v); [|reflexivity].
  rewrite peek_insert_same
    by (apply merged_byte; [apply peek_octet | apply enable_mask_byte]).
  rewrite merged_idempotent. apply insert_insert_eq.
Qed.

End Compose.

(** X15. On a plain register file, repeating a [setLdo c v] changes
    nothing further: after the second call the register file is what the
    first call left, for every [v] (accepted, below 500, or rejected), and
    [getLdo c] returns the same as after the first call. *)
Theorem ldo_set_twice_is_once
    (c : RegulatorChannel) (v : Z) (s : AXP2101 (gmap Z Z)) :
  regs (snd (setLdo c v (snd (setLdo c v s)))) = regs (snd (setLdo c v s)) /\
  fst (setLdo c v (snd (setLdo c v s))) = fst (setLdo c v s) /\
  fst (getLdo c (snd (setLdo c v (snd (setLdo c v s)))))
  = fst (getLdo c (snd (setLdo c v s))).
Proof.
  assert (Hregs : regs (snd (setLdo c v (snd (setLdo c v s))))
                  = regs (snd (setLdo c v s))).
  { rewrite (setLdo_regs c v (snd (setLdo c v s))), setLdo_regs.
    rewrite write_code_switch_commute, write_code_idempotent.
    apply switch_enable_idempotent. }
  split; [exact Hregs|]. split.
  - destruct (decide (v < 0 \/ channelMax c < v)) as [Hout|Hin].
    + now rewrite !setLdo_out_of_range.
    + destruct (decide (v < 500)) as [Hlow|Hhigh].
      * now rewrite !setLdo_off by lia.
      * now rewrite !setLdo_on by lia.
  - rewrite !getLdo_run, !read_back_fst. now rewrite Hregs.
Qed.

(** X16. On a plain register file, settings of two different channels can
    be made in either order: [setLdo c v] then [setLdo c' v'] leaves the
    same register file as [setLdo c' v'] then [setLdo c v], for all
    voltages, and every channel then reads back the same. *)
Theorem ldo_settings_commute
    (c c' d : RegulatorChannel) (v v' : Z) (s : AXP2101 (gmap Z Z)) :
  c <> c' ->
  regs (snd (setLdo c' v' (snd (setLdo c v s))))
  = regs (snd (setLdo c v (snd (setLdo c' v' s)))) /\
  fst (getLdo d (snd (setLdo c' v' (snd (setLdo c v s)))))
  = fst (getLdo d (snd (setLdo c v (snd (setLdo c' v' s))))).
Proof.
  intros Hne.
  assert (Hregs : regs (snd (setLdo c' v' (snd (setLdo c v s))))
                  = regs (snd (setLdo c v (snd (setLdo c' v' s))))).
  { rewrite (setLdo_regs c' v' (snd (setLdo c v s))), (setLdo_regs c v s).
    rewrite (setLdo_regs c v (snd (setLdo c' v' s))), (setLdo_regs c' v' s).
    rewrite (write_code_switch_commute c' c v' v).
    rewrite (write_code_switch_commute c c' v v').
    rewrite (write_code_commute c' c v' v) by congruence.
    now apply switch_enable_commute, not_eq_sym. }
  split; [exact Hregs|].
  rewrite !getLdo_run, !read_back_fst. now rewrite Hregs.
Qed.

Lemma ldo_settings_commute_witness :
  ALDO1 <> DLDO1 /\
  regs (snd (setLdo DLDO1 0 (snd (setLdo ALDO1 1800 (attach (∅ : gmap Z Z))))))
  = regs (snd (setLdo ALDO1 1800 (snd (setLdo DLDO1 0 (attach (∅ : gmap Z Z)))))).
Proof.
  assert (H1 : ALDO1 <> DLDO1) by discriminate.
  split; [exact H1 |].
  exact (proj1 (ldo_settings_commute ALDO1 DLDO1 ALDO1 1800 0
                  (attach (∅ : gmap Z Z)) H1)).
Defined.

(** ** What a read-back can return *)

(** X17. [getLdo c] never raises and does not compare the stored code
    with the channel's maximum: it returns 0 exactly when the enable bit is
    clear, and otherwise [code * step + 500] for the octet [code] in the
    code register, a value on the channel's grid between 500 and
    [500 + 255 * step]. *)
Theorem ldo_read_back_range
    {D : Type} `{Peripheral D} (c : RegulatorChannel) (s : AXP2101 D) :
  fst (getLdo c s) =
    Ok (if enabled c (regs s)
        then peek (regs s) (voltageRegister c) * channelStep c + 500
        else 0) /\
  500 <= peek (regs s) (voltageRegister c) * channelStep c + 500
      <= 500 + 255 * channelStep c /\
  (peek (regs s) (voltageRegister c) * channelStep c + 500 - 500) mod channelStep c = 0.
Proof.
  rewrite getLdo_run, read_back_fst.
  pose proof (peek_octet (regs s) (voltageRegister c)) as Hb.
  assert (Hstep : 0 < channelStep c) by (destruct c; cbn; lia).
  split; [now destruct (enabled c (regs s))|]. split; [nia|].
  replace (peek (regs s) (voltageRegister c) * channelStep c + 500 - 500)
    with (peek (regs s) (voltageRegister c) * channelStep c) by lia.
  apply Z.mod_mul. lia.
Qed.

(** ** Register numbers outside the octet *)

(** X18. [_read_register8], [_read_register14] and [_set_bit_in_register]
    with a register number outside 0..255 raise [ValueError] when they put
    the number in the transfer buffer: the driver state is returned as it
    was, with nothing sent. *)
Theorem register_number_checked_first
    {D : Type} `{Peripheral D} (register bitmask : Z) (value : bool) (s : AXP2101 D) :
  ~ (0 <= register < 256) ->
  _read_register8 register s =
    (Raise (ValueError "byte must be in range(0, 256)"), s) /\
  _read_register14 register s =
    (Raise (ValueError "byte must be in range(0, 256)"), s) /\
  _set_bit_in_register register bitmask value s =
    (Raise (ValueError "byte must be in range(0, 256)"), s).
Proof.
  intros Hr.
  unfold _read_register8, _read_register14, _set_bit_in_register, bind, set_buffer0.
  rewrite (not_in_byte register Hr). repeat split.
Qed.

Lemma register_number_checked_first_witness :
  ~ (0 <= 0x134 < 256) /\
  _read_register8 0x134 (attach (∅ : gmap Z Z)) =
    (Raise (ValueError "byte must be in range(0, 256)"), attach (∅ : gmap Z Z)).
Proof.
  assert (H1 : ~ (0 <= 0x134 < 256)) by lia.
  split; [exact H1 |].
  exact (proj1 (register_number_checked_first 0x134 0 true (attach (∅ : gmap Z Z)) H1)).
Defined.
